(** * lexstyle llm-client: provider registry, request adapters, router and
      option resolver (src/client.ts, src/types.ts)

    A shallow embedding of the TypeScript module.  JavaScript values that the
    code inspects at run time (truthiness, [typeof], the [in] operator,
    property reads, [??]) are modelled with the run-time behaviour of the
    language; the network transport is outside the embedding: an adapter is
    modelled up to the HTTP request it hands to [fetch]. *)

From Stdlib Require Import String Ascii List Bool Arith ZArith Lia DecimalString.
From Stdlib Require Import Floats.PrimFloat.
Import ListNotations.
Open Scope string_scope.

(** ** Strings *)

Module Str.

(** The double-quote character, written by its code. *)
Definition dquote : string := String "034"%char EmptyString.

(** [starts_with p s]: [s] begins with [p]. *)
Definition starts_with (p s : string) : Prop := exists rest, s = p ++ rest.

(** [contains sub s]: [sub] occurs in [s]. *)
Definition contains (sub s : string) : Prop :=
  exists before after, s = before ++ sub ++ after.

(** [ends_with suf s]: [s] ends with [suf]. *)
Definition ends_with (suf s : string) : Prop := exists front, s = front ++ suf.

(** Array.prototype.join on an array of strings. *)
Fixpoint join (sep : string) (l : list string) : string :=
  match l with
  | [] => ""
  | [x] => x
  | x :: rest => x ++ sep ++ join sep rest
  end.

End Str.

(** ** JavaScript values *)

(** Messages (types.ts). *)
Inductive Role := system | user | assistant.

Record Message := { role : Role; content : string }.

Definition Role_eqb (a b : Role) : bool :=
  match a, b with
  | system, system | user, user | assistant, assistant => true
  | _, _ => false
  end.

(** Function objects.  A function written by the user of the library is
    known by its reference only; the arrow function created by [resolveLlm]
    is known by the variables it captures. *)
Inductive FunctionObject :=
| HostFunction (ref : nat)
| CallLLMClosure (apiKey model : string) (provider baseURL : option string).

(** Run-time values.  A number is an IEEE 754 double. *)
Inductive JsValue :=
| JsUndefined
| JsNull
| JsBoolean (b : bool)
| JsNumber (x : float)
| JsBigInt (n : nat) (negative : bool)
| JsString (s : string)
| JsSymbol (ref : nat)
| JsObject (ref : nat)
| JsFunction (f : FunctionObject).

(** The [typeof] operator. *)
Definition typeof (v : JsValue) : string :=
  match v with
  | JsUndefined => "undefined"
  | JsNull => "object"
  | JsBoolean _ => "boolean"
  | JsNumber _ => "number"
  | JsBigInt _ _ => "bigint"
  | JsString _ => "string"
  | JsSymbol _ => "symbol"
  | JsObject _ => "object"
  | JsFunction _ => "function"
  end.

(** ToBoolean on a string. *)
Definition truthy_string (s : string) : bool :=
  match s with "" => false | _ => true end.

(** ToBoolean: the falsy values are undefined, null, false, +0, -0, NaN,
    0n and the empty string. *)
Definition truthy (v : JsValue) : bool :=
  match v with
  | JsUndefined | JsNull => false
  | JsBoolean b => b
  | JsNumber x => negb (PrimFloat.eqb x PrimFloat.zero || PrimFloat.is_nan x)
  | JsBigInt n _ => negb (Nat.eqb n 0)
  | JsString s => truthy_string s
  | JsSymbol _ | JsObject _ | JsFunction _ => true
  end.

(** The nullish coalescing operator [a ?? b] on optional strings. *)
Definition nullish (a b : option string) : option string :=
  match a with Some _ => a | None => b end.

(** [o === s] for an optional string [o]. *)
Definition strict_eq (o : option string) (s : string) : bool :=
  match o with Some x => String.eqb x s | None => false end.

(** Thrown errors. *)
Inductive JsError :=
| Error (message : string)
| TypeError (message : string).

Definition message_of (e : JsError) : string :=
  match e with Error m | TypeError m => m end.

Inductive Result (A : Type) :=
| Ok (a : A)
| Throw (e : JsError).
Arguments Ok {A} a.
Arguments Throw {A} e.

(** ** Provider registry *)

Record ProviderConfig := { cfg_baseURL : string; defaultModel : string }.

Module Registry.

(** The own properties of the PROVIDER_CONFIGS object literal, in
    declaration order (the order Object.keys reports for string keys). *)
Definition PROVIDER_CONFIGS : list (string * ProviderConfig) :=
  [ ("openai",     {| cfg_baseURL := "https://api.openai.com/v1";
                      defaultModel := "gpt-4o-mini" |});
    ("anthropic",  {| cfg_baseURL := "https://api.anthropic.com";
                      defaultModel := "claude-haiku-4-5-20251001" |});
    ("gemini",     {| cfg_baseURL := "https://generativelanguage.googleapis.com/v1beta/openai";
                      defaultModel := "gemini-2.0-flash" |});
    ("groq",       {| cfg_baseURL := "https://api.groq.com/openai/v1";
                      defaultModel := "llama-3.3-70b-versatile" |});
    ("together",   {| cfg_baseURL := "https://api.together.xyz/v1";
                      defaultModel := "meta-llama/Meta-Llama-3.1-8B-Instruct-Turbo" |});
    ("mistral",    {| cfg_baseURL := "https://api.mistral.ai/v1";
                      defaultModel := "mistral-small-latest" |});
    ("openrouter", {| cfg_baseURL := "https://openrouter.ai/api/v1";
                      defaultModel := "" |});
    ("xai",        {| cfg_baseURL := "https://api.x.ai/v1";
                      defaultModel := "grok-3-mini-fast" |});
    ("deepseek",   {| cfg_baseURL := "https://api.deepseek.com";
                      defaultModel := "deepseek-chat" |}) ].

(** An object literal inherits from Object.prototype; these are the
    property names every such object answers to through its prototype. *)
Definition Object_prototype_keys : list string :=
  [ "constructor"; "__defineGetter__"; "__defineSetter__"; "hasOwnProperty";
    "__lookupGetter__"; "__lookupSetter__"; "isPrototypeOf";
    "propertyIsEnumerable"; "toString"; "valueOf"; "__proto__";
    "toLocaleString" ].

(** What a property read on PROVIDER_CONFIGS yields: a configuration
    record (own property) or a member of Object.prototype. *)
Inductive Entry :=
| Own (c : ProviderConfig)
| Inherited (name : string).

Fixpoint own_lookup (k : string) (o : list (string * ProviderConfig))
  : option ProviderConfig :=
  match o with
  | [] => None
  | (k', c) :: rest => if String.eqb k k' then Some c else own_lookup k rest
  end.

Definition inherited (k : string) : bool :=
  existsb (String.eqb k) Object_prototype_keys.

(** [k in PROVIDER_CONFIGS]: own properties, then the prototype chain. *)
Definition has_property (k : string) : bool :=
  match own_lookup k PROVIDER_CONFIGS with
  | Some _ => true
  | None => inherited k
  end.

(** [PROVIDER_CONFIGS[k]]; [None] is [undefined]. *)
Definition get (k : string) : option Entry :=
  match own_lookup k PROVIDER_CONFIGS with
  | Some c => Some (Own c)
  | None => if inherited k then Some (Inherited k) else None
  end.

(** [Object.keys(PROVIDER_CONFIGS)]. *)
Definition keys : list string := map fst PROVIDER_CONFIGS.

(** [e.defaultModel] and [e.baseURL]: the members of Object.prototype carry
    no such property, the read yields [undefined]. *)
Definition entry_defaultModel (e : Entry) : option string :=
  match e with Own c => Some (defaultModel c) | Inherited _ => None end.

Definition entry_baseURL (e : Entry) : option string :=
  match e with Own c => Some (cfg_baseURL c) | Inherited _ => None end.

End Registry.

(** The nine identifiers of the [Provider] type (types.ts). *)
Definition Provider_values : list string :=
  [ "openai"; "anthropic"; "gemini"; "groq"; "together"; "mistral";
    "openrouter"; "xai"; "deepseek" ].

Definition is_Provider (p : string) : Prop := In p Provider_values.

(** getProviderConfig.  The value returned is whatever the property read
    [PROVIDER_CONFIGS[provider]] yields. *)
Definition getProviderConfig (provider : string)
  : Result (option Registry.Entry) :=
  if negb (Registry.has_property provider) then
    let valid := Str.join ", " Registry.keys in
    Throw (Error ("Unknown provider " ++ Str.dquote ++ provider ++ Str.dquote
                   ++ ". Valid providers: " ++ valid))
  else Ok (Registry.get provider).

(** ** Regular expressions and String.prototype.replace

    The fragment of ECMAScript regular expressions that the module uses:
    literal characters, a greedy [+] on a literal character, the [$]
    assertion (end of input, no [m] flag) and the [i] flag.  Strings are
    sequences of bytes here; the patterns only name ASCII characters, and no
    byte of a multi-byte character equals an ASCII character or is changed
    by canonicalization, so matching agrees with matching on code units. *)

Module RegExp.

Inductive Term :=
| Char (c : ascii)
| OneOrMore (c : ascii)
| EndOfInput.

Record Pattern := { terms : list Term; ignoreCase : bool }.

(** Canonicalize under the [i] flag: upper-casing, which on ASCII moves
    the letters a-z only. *)
Definition canonicalize (c : ascii) : ascii :=
  let n := nat_of_ascii c in
  if Nat.leb 97 n && Nat.leb n 122 then ascii_of_nat (n - 32) else c.

Definition char_matches (i : bool) (p c : ascii) : bool :=
  if i then Ascii.eqb (canonicalize p) (canonicalize c) else Ascii.eqb p c.

(** The backtracking matcher anchored at the start of [s]: the number of
    characters of the first successful match, [None] when there is none.
    A greedy [+] first tries to take one more character and falls back to
    the rest of the pattern. *)
Fixpoint match_here (i : bool) (p : list Term) (s : string) {struct p}
  : option nat :=
  match p with
  | [] => Some 0
  | EndOfInput :: p' =>
      match s with
      | EmptyString => match_here i p' s
      | String _ _ => None
      end
  | Char a :: p' =>
      match s with
      | String c s' =>
          if char_matches i a c then option_map S (match_here i p' s')
          else None
      | EmptyString => None
      end
  | OneOrMore a :: p' =>
      (fix more (s : string) : option nat :=
         match s with
         | String c s' =>
             if char_matches i a c then
               match more s' with
               | Some n => Some (S n)
               | None => option_map S (match_here i p' s')
               end
             else None
         | EmptyString => None
         end) s
  end.

Definition matches_at (re : Pattern) (s : string) : option nat :=
  match_here (ignoreCase re) (terms re) s.

Fixpoint skip (n : nat) (s : string) : string :=
  match n, s with
  | S n', String _ s' => skip n' s'
  | _, _ => s
  end.

(** [s.replace(re, replacement)] for a pattern without the [g] flag and a
    replacement text without [$] patterns: the leftmost match is replaced,
    a string without a match is returned as it is. *)
Fixpoint replace (re : Pattern) (replacement : string) (s : string) : string :=
  match matches_at re s with
  | Some n => replacement ++ skip n s
  | None =>
      match s with
      | EmptyString => EmptyString
      | String c s' => String c (replace re replacement s')
      end
  end.

End RegExp.

(** ** JSON values handed to JSON.stringify *)

#[warnings="-register-all"]
Inductive Json :=
| JNumber (n : Z)
| JString (s : string)
| JArray (items : list Json)
| JObject (fields : list (string * Json)).

Fixpoint Json_field (k : string) (fields : list (string * Json)) : option Json :=
  match fields with
  | [] => None
  | (k', v) :: rest => if String.eqb k k' then Some v else Json_field k rest
  end.

(** [o[k]] on a JSON object; [None] when the property is absent. *)
Definition Json_get (k : string) (o : Json) : option Json :=
  match o with JObject fields => Json_field k fields | _ => None end.

Definition Role_name (r : Role) : string :=
  match r with
  | system => "system"
  | user => "user"
  | assistant => "assistant"
  end.

(** ** Anthropic adapter: the request given to [fetch] *)

Record HttpRequest := {
  req_url : string;
  req_method : string;
  req_headers : list (string * string);
  req_body : Json
}.

Module Anthropic.

(** /\/+$/ *)
Definition trailing_slashes : RegExp.Pattern :=
  {| RegExp.terms := [RegExp.OneOrMore "/"; RegExp.EndOfInput];
     RegExp.ignoreCase := false |}.

(** /\/v1$/i *)
Definition trailing_v1 : RegExp.Pattern :=
  {| RegExp.terms := [RegExp.Char "/"; RegExp.Char "v"; RegExp.Char "1";
                      RegExp.EndOfInput];
     RegExp.ignoreCase := true |}.

(** [PROVIDER_CONFIGS.anthropic.baseURL] *)
Definition default_baseURL : string :=
  match Registry.own_lookup "anthropic" Registry.PROVIDER_CONFIGS with
  | Some c => cfg_baseURL c
  | None => ""
  end.

Definition resolvedBaseURL (baseURL : option string) : string :=
  let supplied := match baseURL with Some b => b | None => default_baseURL end in
  RegExp.replace trailing_v1 "" (RegExp.replace trailing_slashes "" supplied).

Definition url (baseURL : option string) : string :=
  resolvedBaseURL baseURL ++ "/v1/messages".

Definition is_system (m : Message) : bool := Role_eqb (role m) system.

Definition message_json (m : Message) : Json :=
  JObject [("role", JString (Role_name (role m)));
           ("content", JString (content m))].

Definition body (messages : list Message) (model : string) : Json :=
  let systemMsg := find is_system messages in
  let nonSystemMsgs := filter (fun m => negb (is_system m)) messages in
  let fields :=
    [("model", JString model);
     ("max_tokens", JNumber 4096);
     ("messages", JArray (map message_json nonSystemMsgs))] in
  match systemMsg with
  | Some m => JObject (fields ++ [("system", JString (content m))])%list
  | None => JObject fields
  end.

Definition request (messages : list Message) (apiKey model : string)
    (baseURL : option string) : HttpRequest :=
  {| req_url := url baseURL;
     req_method := "POST";
     req_headers := [("content-type", "application/json");
                     ("x-api-key", apiKey);
                     ("anthropic-version", "2023-06-01")];
     req_body := body messages model |}.

End Anthropic.

(** ** Sequencing of computations that may throw *)

Definition bind {A B : Type} (r : Result A) (k : A -> Result B) : Result B :=
  match r with
  | Ok a => k a
  | Throw e => Throw e
  end.

Notation "'let*' x ':=' r 'in' k" := (bind r (fun x => k))
  (at level 10, x name, r at level 100, k at level 200, only parsing).

(** ** Router *)

(** The adapter call that [callLLM] returns the promise of. *)
Inductive AdapterCall :=
| callAnthropic (messages : list Message) (apiKey model : string)
    (baseURL : option string)
| callOpenAICompatible (messages : list Message) (apiKey model : string)
    (baseURL : option string).

(** callLLM.  The right operand of [??] is evaluated only when [baseURL] is
    nullish; reading [.baseURL] of [undefined] there is a TypeError, which
    rejects the promise of the async function. *)
Definition callLLM (messages : list Message) (apiKey model : string)
    (provider baseURL : option string) : Result AdapterCall :=
  if strict_eq provider "anthropic" then
    Ok (callAnthropic messages apiKey model baseURL)
  else
    let* resolvedBaseURL :=
      match baseURL with
      | Some _ => Ok baseURL
      | None =>
          match provider with
          | Some p =>
              if truthy_string p then
                match Registry.get p with
                | Some e => Ok (Registry.entry_baseURL e)
                | None =>
                    Throw (TypeError
                      "Cannot read properties of undefined (reading 'baseURL')")
                end
              else Ok None
          | None => Ok None
          end
      end in
    Ok (callOpenAICompatible messages apiKey model resolvedBaseURL).

(** ** Option resolver *)

Record LlmOptions := {
  apiKey : option string;
  provider : option string;
  model : option string;
  baseURL : option string;
  llm : JsValue
}.

(** [providerConfig?.defaultModel] *)
Definition opt_defaultModel (providerConfig : option Registry.Entry)
  : option string :=
  match providerConfig with
  | Some e => Registry.entry_defaultModel e
  | None => None
  end.

Definition requires_model_message (packageName : string) : string :=
  packageName ++
  " requires `model` when using `apiKey` (or use a `provider` with a default model)".

Definition requires_either_message (packageName : string) : string :=
  packageName ++
  " requires either `apiKey` + `model`, `apiKey` + `provider`, or `llm` option".

Definition resolveLlm (options : LlmOptions) (packageName : string)
  : Result JsValue :=
  if truthy (llm options) then
    if negb (String.eqb (typeof (llm options)) "function") then
      Throw (Error "`llm` option must be a function")
    else Ok (llm options)
  else
    match apiKey options with
    | Some key =>
        if truthy_string key then
          let* providerConfig :=
            match provider options with
            | Some p =>
                if truthy_string p then getProviderConfig p else Ok None
            | None => Ok None
            end in
          let model := nullish (model options) (opt_defaultModel providerConfig) in
          match model with
          | Some m =>
              if truthy_string m then
                Ok (JsFunction
                      (CallLLMClosure key m (provider options) (baseURL options)))
              else Throw (Error (requires_model_message packageName))
          | None => Throw (Error (requires_model_message packageName))
          end
        else Throw (Error (requires_either_message packageName))
    | None => Throw (Error (requires_either_message packageName))
    end.

(** Calling a function object with a message list.  The arrow function of
    [resolveLlm] calls the router with its captured variables; what a
    function of the user does is not known. *)
Definition call (f : FunctionObject) (messages : list Message)
  : option (Result AdapterCall) :=
  match f with
  | CallLLMClosure key m p b => Some (callLLM messages key m p b)
  | HostFunction _ => None
  end.


(** ** The adapters with their transport

    The two adapters in full.  What lies outside the module is a parameter:
    [fetch] is the global of that name, and [create client params] stands
    for [new OpenAI(client).chat.completions.create(params)]; either may
    fail.  A response is modelled as the code types it. *)

(** A content block of the Anthropic response; [block_text] is optional. *)
Record ContentBlock := { block_type : string; block_text : option string }.

(** The parsed body of the Anthropic response; the code reads [content]
    through [?.], so [None] (no such property) is provided for. *)
Record AnthropicData := { data_content : option (list ContentBlock) }.

(** The response of [fetch]: [ok], [status], and the results of [text()]
    and [json()], each of which may reject. *)
Record HttpResponse := {
  res_ok : bool;
  res_status : nat;
  res_text : Result string;
  res_json : Result AnthropicData
}.

(** The options object given to the OpenAI constructor; [None] for
    [client_baseURL] is an object without that property. *)
Record ClientOptions := {
  client_apiKey : string;
  client_baseURL : option string
}.

Record CompletionParams := {
  param_model : string;
  param_messages : list Message;
  param_temperature : Z
}.

(** The chat completion as the code reads it:
    [response.choices[0]?.message?.content], where [content] may be null. *)
Record ChoiceMessage := { message_content : option string }.
Record Choice := { choice_message : option ChoiceMessage }.
Record ChatCompletion := { choices : list Choice }.

(** A status code in a template literal. *)
Definition Number_toString (n : nat) : string :=
  NilZero.string_of_uint (Nat.to_uint n).

(** Case analysis on an adapter call. *)
Definition AdapterCall_case {R : Type}
    (anthropic openai : list Message -> string -> string -> option string -> R)
    (c : AdapterCall) : R :=
  match c with
  | callAnthropic messages key m b => anthropic messages key m b
  | callOpenAICompatible messages key m b => openai messages key m b
  end.

Module Run.

Section Transport.

Variable fetch : HttpRequest -> Result HttpResponse.
Variable create : ClientOptions -> CompletionParams -> Result ChatCompletion.

Definition is_text (b : ContentBlock) : bool := String.eqb (block_type b) "text".

(** callAnthropic *)
Definition callAnthropic (messages : list Message) (apiKey model : string)
    (baseURL : option string) : Result string :=
  let* res := fetch (Anthropic.request messages apiKey model baseURL) in
  if negb (res_ok res) then
    let* text := res_text res in
    Throw (Error ("Anthropic API error (" ++ Number_toString (res_status res)
                   ++ "): " ++ text))
  else
    let* data := res_json res in
    let textBlock :=
      match data_content data with
      | Some blocks => find is_text blocks
      | None => None
      end in
    match textBlock with
    | Some b =>
        match block_text b with
        | Some t =>
            if truthy_string t then Ok t
            else Throw (Error "Anthropic returned an empty response")
        | None => Throw (Error "Anthropic returned an empty response")
        end
    | None => Throw (Error "Anthropic returned an empty response")
    end.

(** [{ apiKey, ...(baseURL ? { baseURL } : {}) }] *)
Definition client_options (apiKey : string) (baseURL : option string)
  : ClientOptions :=
  {| client_apiKey := apiKey;
     client_baseURL :=
       match baseURL with
       | Some b => if truthy_string b then Some b else None
       | None => None
       end |}.

(** callOpenAICompatible *)
Definition callOpenAICompatible (messages : list Message)
    (apiKey model : string) (baseURL : option string) : Result string :=
  let* response :=
    create (client_options apiKey baseURL)
      {| param_model := model; param_messages := messages;
         param_temperature := 0 |} in
  let content :=
    match choices response with
    | c :: _ =>
        match choice_message c with
        | Some m => message_content m
        | None => None
        end
    | [] => None
    end in
  match content with
  | Some t =>
      if truthy_string t then Ok t
      else Throw (Error "LLM returned an empty response")
  | None => Throw (Error "LLM returned an empty response")
  end.

(** The adapter call carried out. *)
Definition perform (c : AdapterCall) : Result string :=
  AdapterCall_case callAnthropic callOpenAICompatible c.

(** callLLM, adapter included. *)
Definition callLLM (messages : list Message) (apiKey model : string)
    (provider baseURL : option string) : Result string :=
  let* c := callLLM messages apiKey model provider baseURL in perform c.

(** Calling a function object, adapter included. *)
Definition invoke (f : FunctionObject) (messages : list Message)
  : option (Result string) :=
  match f with
  | CallLLMClosure key m p b => Some (callLLM messages key m p b)
  | HostFunction _ => None
  end.

End Transport.

End Run.

(** ** Notions of the specification *)

Module Spec.

(** The registry default model of a provider identifier. *)
Definition registry_defaultModel (p : string) : option string :=
  option_map defaultModel (Registry.own_lookup p Registry.PROVIDER_CONFIGS).

(** The effective model in the words of the specification: [model] if
    given, else the registry default model of [provider] if given. *)
Definition effective_model (o : LlmOptions) : option string :=
  match model o with
  | Some m => Some m
  | None =>
      match provider o with
      | Some p => registry_defaultModel p
      | None => None
      end
  end.

(** "No model can be determined": no [model] and either no [provider] or
    a provider whose default model is the empty string. *)
Definition no_model_determined (o : LlmOptions) : bool :=
  match model o with
  | Some _ => false
  | None =>
      match provider o with
      | None => true
      | Some p =>
          match registry_defaultModel p with
          | Some d => String.eqb d ""
          | None => true
          end
      end
  end.

(** Rule 2 in the words of the specification, for options whose [apiKey]
    is [key]. *)
Definition resolve_with_apiKey (key : string) (o : LlmOptions)
    (callerName : string) : Result JsValue :=
  if no_model_determined o then
    Throw (Error (requires_model_message callerName))
  else
    match effective_model o with
    | Some m =>
        Ok (JsFunction (CallLLMClosure key m (provider o) (baseURL o)))
    | None => Throw (Error (requires_model_message callerName))
    end.

(** The model is missing, as the code sees it: an empty [model], or no
    [model] and either no [provider] or a provider whose default model is
    the empty string. *)
Definition model_missing (o : LlmOptions) : Prop :=
  model o = Some "" \/
  (model o = None /\
   (provider o = None \/
    exists p, provider o = Some p /\ registry_defaultModel p = Some "")).

(** The registry base URL of a provider identifier. *)
Definition registry_baseURL (p : string) : option string :=
  option_map cfg_baseURL (Registry.own_lookup p Registry.PROVIDER_CONFIGS).

(** The effective base URL of the router in the words of the
    specification: [baseURL] if given, else the registry base URL of
    [provider] if given, else [undefined]. *)
Definition effective_baseURL (provider baseURL : option string)
  : option string :=
  match baseURL with
  | Some b => Some b
  | None =>
      match provider with
      | Some p => registry_baseURL p
      | None => None
      end
  end.

(** [kept] is the list of the non-system messages of [messages], in
    their order: read from the left, a system message is dropped and any
    other message is kept. *)
Inductive non_system_of : list Message -> list Message -> Prop :=
| nso_nil : non_system_of [] []
| nso_drop m messages kept :
    role m = system -> non_system_of messages kept ->
    non_system_of (m :: messages) kept
| nso_keep m messages kept :
    role m <> system -> non_system_of messages kept ->
    non_system_of (m :: messages) (m :: kept).

(** A run of [k] slashes. *)
Fixpoint slashes (k : nat) : string :=
  match k with
  | 0 => ""
  | S k' => String "/" (slashes k')
  end.

(** The base URL the Anthropic adapter starts from: the one supplied, else
    the one of the registry. *)
Definition supplied_baseURL (baseURL : option string) : string :=
  match baseURL with
  | Some b => b
  | None => "https://api.anthropic.com"
  end.

(** The [provider] field holds a value of the Provider type. *)
Definition provider_typed (o : LlmOptions) : Prop :=
  forall p, provider o = Some p -> is_Provider p.

End Spec.

(** The text of the failure of getProviderConfig on [p]. *)
Definition unknown_provider_message (p : string) : string :=
  "Unknown provider " ++ Str.dquote ++ p ++ Str.dquote ++
  ". Valid providers: openai, anthropic, gemini, groq, together, mistral, openrouter, xai, deepseek".

(** A string made of slashes only. *)
Fixpoint only_slashes (s : string) : bool :=
  match s with
  | EmptyString => true
  | String c s' => Ascii.eqb c "/" && only_slashes s'
  end.

(** ** Sample inputs *)

Module Examples.

(** Options with nothing but the given fields. *)
Definition only_llm (v : JsValue) : LlmOptions :=
  {| apiKey := None; provider := None; model := None; baseURL := None;
     llm := v |}.

(** [{ apiKey: "sk-test", provider: "openai" }] *)
Definition openai_by_provider : LlmOptions :=
  {| apiKey := Some "sk-test"; provider := Some "openai"; model := None;
     baseURL := None; llm := JsUndefined |}.

End Examples.

(** ** Sample transports *)

Module Transports.

(** A network that is down. *)
Definition offline_fetch : HttpRequest -> Result HttpResponse :=
  fun _ => Throw (Error "fetch failed").

Definition offline_create
  : ClientOptions -> CompletionParams -> Result ChatCompletion :=
  fun _ _ => Throw (Error "Connection error.").

(** A 200 response with one text block. *)
Definition fetch_text (t : string) : HttpRequest -> Result HttpResponse :=
  fun _ =>
    Ok {| res_ok := true; res_status := 200;
          res_text := Ok t;
          res_json :=
            Ok {| data_content :=
                    Some [ {| block_type := "text"; block_text := Some t |} ] |} |}.

(** A response outside the 2xx range, with a body that is no JSON. *)
Definition fetch_status (n : nat) (body : string)
  : HttpRequest -> Result HttpResponse :=
  fun _ =>
    Ok {| res_ok := false; res_status := n;
          res_text := Ok body;
          res_json := Throw (Error "Unexpected token") |}.

(** A completion with one choice. *)
Definition create_text (t : string)
  : ClientOptions -> CompletionParams -> Result ChatCompletion :=
  fun _ _ =>
    Ok {| choices :=
            [ {| choice_message := Some {| message_content := Some t |} |} ] |}.

End Transports.

(** * Properties *)

Module StrFacts.

Lemma append_assoc (a b c : string) : (a ++ b) ++ c = a ++ (b ++ c).
Proof. induction a as [|x a IH]; simpl; [reflexivity | now rewrite IH]. Qed.

Lemma length_append (a b : string) :
  String.length (a ++ b) = String.length a + String.length b.
Proof. induction a as [|x a IH]; simpl; [reflexivity | now rewrite IH]. Qed.

End StrFacts.

(** ** The registry and getProviderConfig *)

Section RegistryFacts.

Import Registry.

Lemma own_lookup_None (k : string) (o : list (string * ProviderConfig)) :
  own_lookup k o = None <-> ~ In k (map fst o).
Proof.
  induction o as [|[k' c] o IH]; simpl.
  - tauto.
  - destruct (String.eqb_spec k k') as [->|Hne].
    + split; [discriminate | intros H; exfalso; apply H; now left].
    + rewrite IH. split.
      * intros H [E|E]; [now apply Hne | now apply H].
      * intros H E. apply H. now right.
Qed.

Lemma own_lookup_In (k : string) (c : ProviderConfig)
    (o : list (string * ProviderConfig)) :
  own_lookup k o = Some c -> In (k, c) o.
Proof.
  induction o as [|[k' c'] o IH]; simpl; [discriminate|].
  destruct (String.eqb_spec k k') as [->|Hne].
  - intros [= ->]. now left.
  - intros H. right. now apply IH.
Qed.

(** The keys of the registry are the identifiers of the Provider type, in
    the same order. *)
Lemma keys_are_Provider_values : keys = Provider_values.
Proof. reflexivity. Qed.

Lemma is_Provider_own (p : string) :
  is_Provider p <-> exists c, own_lookup p PROVIDER_CONFIGS = Some c.
Proof.
  unfold is_Provider. rewrite <- keys_are_Provider_values. unfold keys.
  destruct (own_lookup p PROVIDER_CONFIGS) as [c|] eqn:E.
  - split; [intros _; now exists c|]. intros _.
    apply own_lookup_In in E. now apply (in_map fst) in E.
  - apply own_lookup_None in E. split; [tauto|]. now intros [c Hc].
Qed.

(** A registered identifier is answered with its own record. *)
Lemma getProviderConfig_registered (p : string) :
  is_Provider p ->
  exists c, own_lookup p PROVIDER_CONFIGS = Some c /\
            getProviderConfig p = Ok (Some (Own c)).
Proof.
  intros H. apply is_Provider_own in H as [c Hc]. exists c. split; [exact Hc|].
  unfold getProviderConfig, has_property, get. now rewrite Hc.
Qed.


(** A string that is neither a registered identifier nor the name of a
    member of Object.prototype is refused, with the nine identifiers
    listed in declaration order. *)
Lemma getProviderConfig_unknown (p : string) :
  ~ is_Provider p -> inherited p = false ->
  getProviderConfig p = Throw (Error (unknown_provider_message p)).
Proof.
  intros Hp Hi. unfold getProviderConfig, has_property.
  destruct (own_lookup p PROVIDER_CONFIGS) as [c|] eqn:E.
  - exfalso. apply Hp. apply is_Provider_own. now exists c.
  - rewrite Hi. reflexivity.
Qed.

(** getProviderConfig never answers [undefined]. *)
Lemma getProviderConfig_defined (p : string) :
  getProviderConfig p <> Ok None.
Proof.
  unfold getProviderConfig, has_property, get.
  destruct (own_lookup p PROVIDER_CONFIGS); [discriminate|].
  destruct (inherited p); discriminate.
Qed.

End RegistryFacts.

Example getProviderConfig_openai :
  getProviderConfig "openai" =
  Ok (Some (Registry.Own {| cfg_baseURL := "https://api.openai.com/v1";
                            defaultModel := "gpt-4o-mini" |})).
Proof. reflexivity. Qed.

Example getProviderConfig_invalid :
  exists m, getProviderConfig "invalid" = Throw (Error m) /\
            Str.contains ("Unknown provider " ++ Str.dquote ++ "invalid" ++ Str.dquote) m /\
            Str.contains "Valid providers:" m.
Proof.
  eexists. split; [reflexivity|]. split.
  - now exists "", ". Valid providers: openai, anthropic, gemini, groq, together, mistral, openrouter, xai, deepseek".
  - exists ("Unknown provider " ++ Str.dquote ++ "invalid" ++ Str.dquote ++ ". "),
      " openai, anthropic, gemini, groq, together, mistral, openrouter, xai, deepseek".
    reflexivity.
Qed.

(** C4 (the code departs from the claim).  The claim: every string outside
    the nine registered identifiers makes getProviderConfig fail with the
    "Unknown provider" error.  The membership test is the [in] operator,
    which also answers for the names inherited from Object.prototype: the
    string "toString" is not a registered identifier, and getProviderConfig
    returns the inherited member for it instead of failing. *)
Theorem getProviderConfig_toString_not_rejected :
  ~ is_Provider "toString" /\
  getProviderConfig "toString" = Ok (Some (Registry.Inherited "toString")) /\
  (forall m, getProviderConfig "toString" <> Throw (Error m)).
Proof.
  split; [|split].
  - unfold is_Provider, Provider_values. simpl. intuition discriminate.
  - reflexivity.
  - intros m. discriminate.
Qed.

(** ** The option resolver *)

Module StrInj.

Lemma append_inv_head (a b c : string) : a ++ b = a ++ c -> b = c.
Proof.
  induction a as [|x a IH]; simpl; [auto|]. intros [= H]. now apply IH.
Qed.

End StrInj.

(** The two configuration errors of a package never coincide. *)
Lemma requires_messages_differ (name : string) :
  requires_either_message name <> requires_model_message name.
Proof.
  unfold requires_either_message, requires_model_message.
  intros H. apply StrInj.append_inv_head in H. discriminate.
Qed.


(** C3: a function given as [llm] is returned as it is, the very same
    function object, whatever the other options and the caller name are. *)
Theorem resolveLlm_llm_passthrough :
  forall (f : FunctionObject) (callerName : string)
         (key p m b : option string),
    resolveLlm (Examples.only_llm (JsFunction f)) callerName = Ok (JsFunction f) /\
    resolveLlm {| apiKey := key; provider := p; model := m; baseURL := b;
                  llm := JsFunction f |} callerName = Ok (JsFunction f).
Proof. intros. split; reflexivity. Qed.

(** C8: with neither [llm] nor [apiKey] set, resolveLlm throws the error
    that starts with the caller name, continues with "requires either" and
    lists the three configuration shapes; no caller is returned. *)
Theorem resolveLlm_nothing_set :
  forall (o : LlmOptions) (callerName : string),
    llm o = JsUndefined -> apiKey o = None ->
    resolveLlm o callerName =
      Throw (Error (callerName ++
        " requires either `apiKey` + `model`, `apiKey` + `provider`, or `llm` option")) /\
    (exists e, resolveLlm o callerName = Throw e /\
               Str.starts_with (callerName ++ " requires either") (message_of e)) /\
    (forall v, resolveLlm o callerName <> Ok v).
Proof.
  intros o callerName Hl Hk.
  assert (E : resolveLlm o callerName =
              Throw (Error (requires_either_message callerName))).
  { unfold resolveLlm. rewrite Hl, Hk. reflexivity. }
  split; [exact E|]. split.
  - eexists. split; [exact E|]. simpl.
    exists " `apiKey` + `model`, `apiKey` + `provider`, or `llm` option".
    unfold requires_either_message. now rewrite StrFacts.append_assoc.
  - intros v. rewrite E. discriminate.
Qed.

Lemma resolveLlm_nothing_set_witness :
  resolveLlm (Examples.only_llm JsUndefined) "mypkg" =
    Throw (Error "mypkg requires either `apiKey` + `model`, `apiKey` + `provider`, or `llm` option").
Proof.
  exact (proj1 (resolveLlm_nothing_set (Examples.only_llm JsUndefined) "mypkg"
                  eq_refl eq_refl)).
Defined.

(** C9: an empty-string [apiKey] counts as absent: without [llm] the
    "requires either" error is thrown, not the "requires `model`" one, and
    this whatever provider, model and base URL are given beside it. *)
Theorem resolveLlm_empty_apiKey :
  forall (callerName : string) (p m b : option string),
    let o := {| apiKey := Some ""; provider := p; model := m; baseURL := b;
                llm := JsUndefined |} in
    resolveLlm o callerName =
      Throw (Error (callerName ++
        " requires either `apiKey` + `model`, `apiKey` + `provider`, or `llm` option")) /\
    resolveLlm o callerName <>
      Throw (Error (callerName ++
        " requires `model` when using `apiKey` (or use a `provider` with a default model)")).
Proof.
  intros callerName p m b o. split; [reflexivity|].
  unfold o, resolveLlm; simpl. intros [= H].
  now apply (requires_messages_differ callerName).
Qed.

(** C10: an empty-string [model] is not replaced by the default model of
    the provider: for a registered provider with a non-empty default model
    the "requires `model`" error is thrown and no caller on the default
    model is returned. *)
Theorem resolveLlm_empty_model :
  forall (callerName p : string) (c : ProviderConfig) (b : option string),
    Registry.own_lookup p Registry.PROVIDER_CONFIGS = Some c ->
    defaultModel c <> "" ->
    let o := {| apiKey := Some "k"; provider := Some p; model := Some "";
                baseURL := b; llm := JsUndefined |} in
    resolveLlm o callerName =
      Throw (Error (callerName ++
        " requires `model` when using `apiKey` (or use a `provider` with a default model)")) /\
    resolveLlm o callerName <>
      Ok (JsFunction (CallLLMClosure "k" (defaultModel c) (Some p) b)).
Proof.
  intros callerName p c b Hc Hd o.
  assert (E : resolveLlm o callerName =
              Throw (Error (requires_model_message callerName))).
  { unfold o, resolveLlm; simpl.
    destruct (truthy_string p); [|reflexivity].
    unfold getProviderConfig, Registry.has_property, Registry.get.
    rewrite Hc. reflexivity. }
  split; [exact E|]. rewrite E. discriminate.
Qed.

Lemma resolveLlm_empty_model_witness :
  resolveLlm {| apiKey := Some "k"; provider := Some "openai";
                model := Some ""; baseURL := None; llm := JsUndefined |}
    "pkg" =
  Throw (Error "pkg requires `model` when using `apiKey` (or use a `provider` with a default model)").
Proof.
  refine (proj1 (resolveLlm_empty_model "pkg" "openai"
            {| cfg_baseURL := "https://api.openai.com/v1";
               defaultModel := "gpt-4o-mini" |} None eq_refl _)).
  simpl. discriminate.
Defined.

(** *** Rule 1: the [llm] option *)

(** C2 as worded fails: the empty string is a value of [llm] that is not a
    callable, yet rule 1 is skipped for it (the guard is the truthiness of
    [llm]) and, with an API key and a model, a caller is returned. *)
Lemma resolveLlm_falsy_llm_not_rejected :
  let o := {| apiKey := Some "k"; provider := None; model := Some "m";
              baseURL := None; llm := JsString "" |} in
  typeof (llm o) <> "function" /\
  resolveLlm o "pkg" = Ok (JsFunction (CallLLMClosure "k" "m" None None)) /\
  resolveLlm o "pkg" <> Throw (Error "`llm` option must be a function").
Proof.
  simpl. split; [discriminate|]. split; [reflexivity|]. discriminate.
Qed.

(** The values that ToBoolean sends to false. *)
Lemma truthy_false_iff (v : JsValue) :
  truthy v = false <->
  (v = JsUndefined \/ v = JsNull \/ v = JsBoolean false \/
   (exists x, v = JsNumber x /\
              (PrimFloat.eqb x PrimFloat.zero = true \/
               PrimFloat.is_nan x = true)) \/
   (exists negative, v = JsBigInt 0 negative) \/ v = JsString "").
Proof.
  split.
  - destruct v as [| |b|x|n neg|s|r|r|f]; simpl; intros H;
      try discriminate H.
    + now left.
    + right; now left.
    + subst b. right; right; now left.
    + right; right; right; left. exists x. split; [reflexivity|].
      apply negb_false_iff in H. now apply orb_true_iff in H.
    + right; right; right; right; left. exists neg.
      apply negb_false_iff, Nat.eqb_eq in H. now subst n.
    + right; right; right; right; right. destruct s; [reflexivity|discriminate].
  - intros [->|[->|[->|[(x & -> & H)|[(neg & ->)| ->]]]]]; try reflexivity.
    simpl. apply negb_false_iff. now apply orb_true_iff.
Qed.

(** C2 (amended): when [llm] is a truthy value that is not a function,
    resolveLlm throws "`llm` option must be a function", whatever the API
    key, provider, model and base URL are: rule 1 comes before the others.
    A falsy [llm] is treated as unset: resolveLlm answers as it does for the
    same options with [llm] undefined, so the later rules decide; the falsy
    values are undefined, null, false, the numbers zero and NaN, 0n and the
    empty string. *)
Theorem resolveLlm_llm_not_function :
  forall (o : LlmOptions) (callerName : string),
    (truthy (llm o) = true -> typeof (llm o) <> "function" ->
     resolveLlm o callerName =
       Throw (Error "`llm` option must be a function") /\
     (exists e, resolveLlm o callerName = Throw e /\
                Str.contains "`llm` option must be a function"
                  (message_of e))) /\
    (truthy (llm o) = false ->
     resolveLlm o callerName =
     resolveLlm {| apiKey := apiKey o; provider := provider o;
                   model := model o; baseURL := baseURL o;
                   llm := JsUndefined |} callerName) /\
    (truthy (llm o) = false <->
     (llm o = JsUndefined \/ llm o = JsNull \/ llm o = JsBoolean false \/
      (exists x, llm o = JsNumber x /\
                 (PrimFloat.eqb x PrimFloat.zero = true \/
                  PrimFloat.is_nan x = true)) \/
      (exists negative, llm o = JsBigInt 0 negative) \/
      llm o = JsString "")).
Proof.
  intros o callerName. split; [|split].
  - intros Ht Hf.
    assert (E : resolveLlm o callerName =
                Throw (Error "`llm` option must be a function")).
    { unfold resolveLlm. rewrite Ht.
      destruct (String.eqb_spec (typeof (llm o)) "function") as [Heq|_];
        [contradiction | reflexivity]. }
    split; [exact E|]. eexists. split; [exact E|]. now exists "", "".
  - intros Hf. unfold resolveLlm. cbn [llm apiKey provider model baseURL].
    rewrite Hf. reflexivity.
  - apply truthy_false_iff.
Qed.

Lemma resolveLlm_llm_not_function_witness :
  resolveLlm {| apiKey := Some "sk-test"; provider := Some "openai";
                model := None; baseURL := None;
                llm := JsString "not a function" |} "testpkg" =
    Throw (Error "`llm` option must be a function") /\
  resolveLlm {| apiKey := Some "k"; provider := None; model := Some "m";
                baseURL := None; llm := JsString "" |} "pkg" =
    resolveLlm {| apiKey := Some "k"; provider := None; model := Some "m";
                  baseURL := None; llm := JsUndefined |} "pkg".
Proof.
  split.
  - refine (proj1 (proj1 (resolveLlm_llm_not_function
              {| apiKey := Some "sk-test"; provider := Some "openai";
                 model := None; baseURL := None;
                 llm := JsString "not a function" |} "testpkg") eq_refl _)).
    simpl. discriminate.
  - exact (proj1 (proj2 (resolveLlm_llm_not_function
             {| apiKey := Some "k"; provider := None; model := Some "m";
                baseURL := None; llm := JsString "" |} "pkg")) eq_refl).
Defined.

(** The falsy values of [llm] are exactly those rule 1 passes over. *)
Lemma falsy_llm_is_unset (o : LlmOptions) (callerName : string) :
  truthy (llm o) = false ->
  resolveLlm o callerName =
  resolveLlm {| apiKey := apiKey o; provider := provider o; model := model o;
                baseURL := baseURL o; llm := JsUndefined |} callerName.
Proof. intros H. unfold resolveLlm. rewrite H. reflexivity. Qed.

(** *** Rule 2: the [apiKey] option *)


(** C1 as worded fails on two inputs: with an empty-string [apiKey] (which
    is set) nothing of rule 2 happens, the "requires either" error is
    thrown; with an empty-string [model] (which is given) the "requires
    `model`" error is thrown where the claim has a caller on model "". *)
Lemma rule2_as_worded_fails :
  let o1 := {| apiKey := Some ""; provider := None; model := Some "gpt-4o";
               baseURL := None; llm := JsUndefined |} in
  let o2 := {| apiKey := Some "k"; provider := Some "openai";
               model := Some ""; baseURL := None; llm := JsUndefined |} in
  (Spec.resolve_with_apiKey "" o1 "pkg" =
     Ok (JsFunction (CallLLMClosure "" "gpt-4o" None None)) /\
   resolveLlm o1 "pkg" =
     Throw (Error "pkg requires either `apiKey` + `model`, `apiKey` + `provider`, or `llm` option")) /\
  (Spec.resolve_with_apiKey "k" o2 "pkg" =
     Ok (JsFunction (CallLLMClosure "k" "" (Some "openai") None)) /\
   resolveLlm o2 "pkg" =
     Throw (Error "pkg requires `model` when using `apiKey` (or use a `provider` with a default model)")).
Proof. repeat split. Qed.

Lemma truthy_string_true (s : string) : truthy_string s = true <-> s <> "".
Proof. destruct s; simpl; split; congruence. Qed.

Lemma is_Provider_truthy (p : string) : is_Provider p -> truthy_string p = true.
Proof.
  intros H. apply truthy_string_true. intros ->.
  unfold is_Provider, Provider_values in H. simpl in H. intuition discriminate.
Qed.

(** Rule 2 computes the effective model of the specification and demands
    that it is a non-empty string. *)
Lemma rule2_computes_effective_model (o : LlmOptions) (callerName key : string) :
  llm o = JsUndefined -> apiKey o = Some key -> key <> "" ->
  Spec.provider_typed o ->
  resolveLlm o callerName =
  match Spec.effective_model o with
  | Some m =>
      if truthy_string m then
        Ok (JsFunction (CallLLMClosure key m (provider o) (baseURL o)))
      else Throw (Error (requires_model_message callerName))
  | None => Throw (Error (requires_model_message callerName))
  end.
Proof.
  intros Hl Hk Hne Hty. apply truthy_string_true in Hne.
  unfold resolveLlm, Spec.effective_model. rewrite Hl, Hk. simpl. rewrite Hne.
  destruct (provider o) as [p|] eqn:Hp.
  - pose proof (Hty p Hp) as Hin.
    rewrite (is_Provider_truthy p Hin).
    destruct (getProviderConfig_registered p Hin) as (c & Hc & ->).
    unfold Spec.registry_defaultModel. rewrite Hc. simpl.
    destruct (model o); reflexivity.
  - simpl. destruct (model o); reflexivity.
Qed.

(** C1 (amended): for options without [llm], with a non-empty [apiKey] and
    a [provider] of the Provider type when there is one, the effective model
    is [model] if given, else the registry default model of [provider]; when
    it is missing (an empty [model]; or no [model] and no provider, or a
    provider whose default model is empty) resolveLlm throws the error that
    starts with the caller name and says that `model` is required; else it
    returns the function that calls callLLM with the captured API key, the
    effective model, the provider and the base URL. *)
Theorem resolveLlm_apiKey :
  forall (o : LlmOptions) (callerName key : string),
    llm o = JsUndefined -> apiKey o = Some key -> key <> "" ->
    Spec.provider_typed o ->
    (Spec.model_missing o ->
       resolveLlm o callerName =
         Throw (Error (callerName ++
           " requires `model` when using `apiKey` (or use a `provider` with a default model)"))) /\
    (forall m, Spec.effective_model o = Some m -> m <> "" ->
       resolveLlm o callerName =
         Ok (JsFunction (CallLLMClosure key m (provider o) (baseURL o))) /\
       forall messages,
         call (CallLLMClosure key m (provider o) (baseURL o)) messages =
         Some (callLLM messages key m (provider o) (baseURL o))) /\
    (Spec.model_missing o \/
     exists m, Spec.effective_model o = Some m /\ m <> "").
Proof.
  intros o callerName key Hl Hk Hne Hty.
  pose proof (rule2_computes_effective_model o callerName key Hl Hk Hne Hty) as E.
  split; [|split].
  - intros Hm. rewrite E. unfold Spec.effective_model.
    destruct Hm as [Hm | [Hm [Hp | (p & Hp & Hd)]]]; rewrite Hm.
    + reflexivity.
    + rewrite Hp. reflexivity.
    + rewrite Hp, Hd. reflexivity.
  - intros m Hm Hmne. split; [|reflexivity].
    rewrite E, Hm. apply truthy_string_true in Hmne. now rewrite Hmne.
  - unfold Spec.model_missing, Spec.effective_model.
    destruct (model o) as [m|].
    + destruct m as [|ch m]; [left; now left|].
      right. eexists. split; [reflexivity | discriminate].
    + destruct (provider o) as [p|] eqn:Hp; [|left; right; split; auto].
      destruct (Spec.registry_defaultModel p) as [d|] eqn:Hd.
      * destruct d as [|ch d].
        -- left. right. split; [reflexivity|]. right. now exists p.
        -- right. eexists. split; [reflexivity | discriminate].
      * exfalso. pose proof (Hty p Hp) as Hin.
        destruct (getProviderConfig_registered p Hin) as (c & Hc & _).
        unfold Spec.registry_defaultModel in Hd. rewrite Hc in Hd. discriminate.
Qed.

Lemma resolveLlm_apiKey_witness :
  resolveLlm Examples.openai_by_provider "testpkg" =
  Ok (JsFunction (CallLLMClosure "sk-test" "gpt-4o-mini" (Some "openai") None)).
Proof.
  assert (T : Spec.provider_typed Examples.openai_by_provider).
  { intros p [= <-]. now left. }
  assert (K : "sk-test" <> "") by discriminate.
  assert (M : "gpt-4o-mini" <> "") by discriminate.
  exact (proj1 (proj1 (proj2 (resolveLlm_apiKey Examples.openai_by_provider
                                "testpkg" "sk-test" eq_refl eq_refl K T))
                  "gpt-4o-mini" eq_refl M)).
Defined.

Example resolveLlm_openrouter_needs_model :
  resolveLlm {| apiKey := Some "k"; provider := Some "openrouter";
                model := None; baseURL := None; llm := JsUndefined |} "mypkg" =
  Throw (Error "mypkg requires `model` when using `apiKey` (or use a `provider` with a default model)").
Proof. reflexivity. Qed.

Example resolveLlm_unknown_provider :
  resolveLlm {| apiKey := Some "sk-test"; provider := Some "invalid";
                model := None; baseURL := None; llm := JsUndefined |} "testpkg" =
  Throw (Error (unknown_provider_message "invalid")).
Proof. reflexivity. Qed.

(** ** The router *)

Lemma strict_eq_true (o : option string) (s : string) :
  strict_eq o s = true <-> o = Some s.
Proof.
  destruct o as [x|]; simpl; [|split; discriminate].
  destruct (String.eqb_spec x s) as [->|Hne]; split; congruence.
Qed.

(** C7: callLLM hands the call to the Anthropic adapter, base URL
    untouched, when the provider is "anthropic"; for any other provider of
    the Provider type, and for no provider, it hands it to the
    OpenAI-compatible adapter with the base URL given, else the registry
    base URL of the provider, else [undefined]. *)
Theorem callLLM_routes :
  forall (messages : list Message) (apiKey model : string)
         (provider baseURL : option string),
    (forall p, provider = Some p -> is_Provider p) ->
    (provider = Some "anthropic" ->
       callLLM messages apiKey model provider baseURL =
       Ok (callAnthropic messages apiKey model baseURL)) /\
    (provider <> Some "anthropic" ->
       callLLM messages apiKey model provider baseURL =
       Ok (callOpenAICompatible messages apiKey model
             (Spec.effective_baseURL provider baseURL))).
Proof.
  intros messages apiKey model provider baseURL Hty. unfold callLLM. split.
  - intros ->. reflexivity.
  - intros Hna.
    destruct (strict_eq provider "anthropic") eqn:E.
    + apply strict_eq_true in E. contradiction.
    + unfold Spec.effective_baseURL.
      destruct baseURL as [b|]; [reflexivity|].
      destruct provider as [p|]; [|reflexivity].
      pose proof (Hty p eq_refl) as Hin.
      rewrite (is_Provider_truthy p Hin).
      apply is_Provider_own in Hin as [c Hc].
      unfold Registry.get, Spec.registry_baseURL. rewrite Hc. reflexivity.
Qed.

Lemma callLLM_routes_witness :
  callLLM [] "k" "llama-3.3-70b-versatile" (Some "groq") None =
  Ok (callOpenAICompatible [] "k" "llama-3.3-70b-versatile"
        (Some "https://api.groq.com/openai/v1")).
Proof.
  assert (T : forall p, Some "groq" = Some p -> is_Provider p).
  { intros p [= <-]. right; right; right; now left. }
  assert (N : Some "groq" <> Some "anthropic") by discriminate.
  exact (proj2 (callLLM_routes [] "k" "llama-3.3-70b-versatile"
                  (Some "groq") None T) N).
Defined.

Example callLLM_anthropic_keeps_baseURL :
  callLLM [] "k" "m" (Some "anthropic") (Some "https://x.example.com/v1/") =
  Ok (callAnthropic [] "k" "m" (Some "https://x.example.com/v1/")).
Proof. reflexivity. Qed.

Example callLLM_no_provider :
  callLLM [] "k" "m" None None = Ok (callOpenAICompatible [] "k" "m" None).
Proof. reflexivity. Qed.

(** ** The Anthropic adapter: request body *)

Section AnthropicBody.

Import Anthropic.

Lemma Role_eqb_eq (a b : Role) : Role_eqb a b = true <-> a = b.
Proof. destruct a, b; simpl; split; congruence. Qed.

Lemma is_system_true (m : Message) : is_system m = true <-> role m = system.
Proof. apply Role_eqb_eq. Qed.

Lemma is_system_false (m : Message) : is_system m = false <-> role m <> system.
Proof.
  rewrite <- is_system_true. destruct (is_system m); split; congruence.
Qed.

(** The filter keeps the non-system messages, in order. *)
Lemma filter_non_system (messages : list Message) :
  Spec.non_system_of messages
    (filter (fun m => negb (is_system m)) messages).
Proof.
  induction messages as [|m l IH]; simpl; [constructor|].
  destruct (is_system m) eqn:E; simpl.
  - apply Spec.nso_drop; [now apply is_system_true | exact IH].
  - apply Spec.nso_keep; [now apply is_system_false | exact IH].
Qed.

(** The relation determines the kept list. *)
Lemma non_system_of_unique (messages k1 k2 : list Message) :
  Spec.non_system_of messages k1 -> Spec.non_system_of messages k2 -> k1 = k2.
Proof.
  intros H1. revert k2.
  induction H1 as [|m l k Hs _ IH|m l k Hs _ IH]; intros k2 H2;
    inversion H2; subst; try contradiction; auto.
  f_equal. now apply IH.
Qed.

(** What [find] returns: the first system message, with only non-system
    messages before it. *)
Lemma find_system_Some (messages : list Message) (s : Message) :
  find is_system messages = Some s ->
  exists before after,
    messages = (before ++ s :: after)%list /\
    Forall (fun m => role m <> system) before /\ role s = system.
Proof.
  induction messages as [|m l IH]; simpl; [discriminate|].
  destruct (is_system m) eqn:E.
  - intros [= ->]. exists [], l. repeat split; [constructor|].
    now apply is_system_true.
  - intros H. destruct (IH H) as (before & after & -> & Hb & Hs).
    exists (m :: before), after. repeat split; [|exact Hs].
    constructor; [now apply is_system_false | exact Hb].
Qed.

Lemma find_system_None (messages : list Message) :
  find is_system messages = None ->
  Forall (fun m => role m <> system) messages.
Proof.
  induction messages as [|m l IH]; simpl; [constructor|].
  destruct (is_system m) eqn:E; [discriminate|].
  intros H. constructor; [now apply is_system_false | now apply IH].
Qed.

End AnthropicBody.

(** C5: in the body of the Anthropic request, [max_tokens] is 4096 whatever
    the arguments are; [messages] holds the non-system messages of the
    input in their order, each as the object of its role (the string
    "user" or "assistant"; "system" does not occur among them) and its
    content; [system] is the content of the first system message, and is
    absent when the input has no system message. *)
Theorem Anthropic_body_shape :
  forall (messages : list Message) (apiKey model : string)
         (baseURL : option string),
    let body := req_body (Anthropic.request messages apiKey model baseURL) in
    Json_get "max_tokens" body = Some (JNumber 4096) /\
    (exists kept,
       Spec.non_system_of messages kept /\
       Json_get "messages" body =
         Some (JArray
                 (map (fun m =>
                         JObject
                           [("role",
                             JString match role m with
                                     | system => "system"
                                     | user => "user"
                                     | assistant => "assistant"
                                     end);
                            ("content", JString (content m))])
                      kept))) /\
    ((Forall (fun m => role m <> system) messages /\
      Json_get "system" body = None) \/
     (exists before s after,
        messages = (before ++ s :: after)%list /\
        Forall (fun m => role m <> system) before /\
        role s = system /\
        Json_get "system" body = Some (JString (content s)))).
Proof.
  intros messages apiKey model baseURL body. subst body.
  cbn [Anthropic.request req_body]. unfold Anthropic.body.
  destruct (find Anthropic.is_system messages) as [s|] eqn:F.
  - split; [reflexivity|]. split.
    + eexists. split; [apply filter_non_system | reflexivity].
    + right. destruct (find_system_Some messages s F)
        as (before & after & E & Hb & Hs).
      exists before, s, after. repeat split; assumption.
  - split; [reflexivity|]. split.
    + eexists. split; [apply filter_non_system | reflexivity].
    + left. split; [now apply find_system_None | reflexivity].
Qed.

Example Anthropic_body_system_and_user :
  Anthropic.body [ {| role := system; content := "S" |};
                   {| role := user; content := "U" |} ] "claude" =
  JObject [ ("model", JString "claude");
            ("max_tokens", JNumber 4096);
            ("messages", JArray [JObject [("role", JString "user");
                                          ("content", JString "U")]]);
            ("system", JString "S") ].
Proof. reflexivity. Qed.

Example Anthropic_body_second_system_dropped :
  Anthropic.body [ {| role := system; content := "S1" |};
                   {| role := user; content := "U" |};
                   {| role := system; content := "S2" |} ] "claude" =
  JObject [ ("model", JString "claude");
            ("max_tokens", JNumber 4096);
            ("messages", JArray [JObject [("role", JString "user");
                                          ("content", JString "U")]]);
            ("system", JString "S1") ].
Proof. reflexivity. Qed.

(** ** The Anthropic adapter: request URL *)

Section AnthropicURL.

Import RegExp Anthropic.

Lemma ends_with_tail (suf : string) (c : ascii) (s : string) :
  Str.ends_with suf s -> Str.ends_with suf (String c s).
Proof. intros [front ->]. now exists (String c front). Qed.

Lemma not_ends_with_empty (c : ascii) (suf : string) :
  ~ Str.ends_with (String c suf) "".
Proof. intros [front H]. destruct front; discriminate. Qed.


Lemma skip_all (s : string) : skip (String.length s) s = "".
Proof. induction s as [|c s IH]; simpl; auto. Qed.

(** The equations of the matcher. *)
Lemma match_here_end_empty (i : bool) (p : list Term) :
  match_here i (EndOfInput :: p) "" = match_here i p "".
Proof. reflexivity. Qed.

Lemma match_here_end_cons (i : bool) (p : list Term) (c : ascii) (s : string) :
  match_here i (EndOfInput :: p) (String c s) = None.
Proof. reflexivity. Qed.

Lemma match_here_char_empty (i : bool) (a : ascii) (p : list Term) :
  match_here i (Char a :: p) "" = None.
Proof. reflexivity. Qed.

Lemma match_here_char_cons (i : bool) (a : ascii) (p : list Term)
    (c : ascii) (s : string) :
  match_here i (Char a :: p) (String c s) =
  if char_matches i a c then option_map S (match_here i p s) else None.
Proof. reflexivity. Qed.

Lemma match_here_more_empty (i : bool) (a : ascii) (p : list Term) :
  match_here i (OneOrMore a :: p) "" = None.
Proof. reflexivity. Qed.

Lemma match_here_more_cons (i : bool) (a : ascii) (p : list Term)
    (c : ascii) (s : string) :
  match_here i (OneOrMore a :: p) (String c s) =
  if char_matches i a c then
    match match_here i (OneOrMore a :: p) s with
    | Some n => Some (S n)
    | None => option_map S (match_here i p s)
    end
  else None.
Proof. reflexivity. Qed.

(** /\/+$/ anchored at a position matches a non-empty run of slashes that
    reaches the end of the input, entirely. *)
Lemma match_slashes (k : nat) :
  matches_at trailing_slashes (Spec.slashes (S k)) = Some (S k).
Proof.
  unfold matches_at, trailing_slashes. cbn [terms ignoreCase].
  induction k as [|k IH].
  - reflexivity.
  - change (Spec.slashes (S (S k))) with (String "/" (Spec.slashes (S k))).
    rewrite match_here_more_cons, IH. reflexivity.
Qed.

Lemma match_slashes_none (s : string) :
  only_slashes s = false -> matches_at trailing_slashes s = None.
Proof.
  unfold matches_at, trailing_slashes. cbn [terms ignoreCase].
  induction s as [|c s IH]; [discriminate|].
  cbn [only_slashes]. rewrite match_here_more_cons.
  unfold char_matches. rewrite (Ascii.eqb_sym "/" c).
  destruct (Ascii.eqb c "/"); [|reflexivity].
  cbn [andb]. intros H. rewrite (IH H).
  destruct s; [discriminate | reflexivity].
Qed.

Lemma replace_unfold (re : Pattern) (t s : string) :
  replace re t s =
  match matches_at re s with
  | Some n => t ++ skip n s
  | None =>
      match s with
      | EmptyString => EmptyString
      | String c s' => String c (replace re t s')
      end
  end.
Proof. destruct s; reflexivity. Qed.

Lemma length_slashes (k : nat) : String.length (Spec.slashes k) = k.
Proof. induction k; simpl; auto. Qed.

Lemma not_only_slashes (r t : string) :
  r <> "" -> ~ Str.ends_with "/" r -> only_slashes (r ++ t) = false.
Proof.
  induction r as [|c r IH]; [congruence|]. intros _ H. simpl.
  destruct r as [|c' r].
  - destruct (Ascii.eqb_spec c "/") as [->|Hne]; [|reflexivity].
    exfalso. apply H. now exists "".
  - rewrite IH; [apply andb_false_r | discriminate |].
    intros E. apply H. now apply ends_with_tail.
Qed.

(** [s.replace(/\/+$/, "")] removes the whole run of slashes at the end. *)
Lemma replace_trailing_slashes (r : string) (k : nat) :
  ~ Str.ends_with "/" r ->
  replace trailing_slashes "" (r ++ Spec.slashes k) = r.
Proof.
  induction r as [|c r IH]; intros H.
  - destruct k as [|k]; [reflexivity|].
    change ("" ++ Spec.slashes (S k)) with (Spec.slashes (S k)).
    rewrite replace_unfold, match_slashes.
    pose proof (skip_all (Spec.slashes (S k))) as E.
    rewrite length_slashes in E. now rewrite E.
  - change (String c r ++ Spec.slashes k) with (String c (r ++ Spec.slashes k)).
    rewrite replace_unfold, match_slashes_none.
    + f_equal. apply IH. intros E. apply H. now apply ends_with_tail.
    + apply (not_only_slashes (String c r) (Spec.slashes k));
        [discriminate | exact H].
Qed.

(** Every string is a string without a slash at its end followed by a run
    of slashes. *)
Lemma trailing_slashes_split (s : string) :
  exists r k, s = r ++ Spec.slashes k /\ ~ Str.ends_with "/" r.
Proof.
  induction s as [|c s (r & k & -> & Hr)].
  - exists "", 0. split; [reflexivity | apply not_ends_with_empty].
  - destruct r as [|c' r].
    + destruct (Ascii.eqb_spec c "/") as [->|Hne].
      * exists "", (S k). split; [reflexivity | apply not_ends_with_empty].
      * exists (String c ""), k. split; [reflexivity|].
        intros [front E]. destruct front as [|x front].
        -- injection E as E. now apply Hne.
        -- injection E as _ E. destruct front; discriminate.
    + exists (String c (String c' r)), k. split; [reflexivity|].
      intros [front E]. destruct front as [|x front]; [discriminate|].
      injection E as _ E. apply Hr. now exists front.
Qed.

(** Under the [i] flag "/" and "1" match themselves only, and "v" matches
    "v" and "V". *)
Lemma char_matches_i_slash (c : ascii) :
  char_matches true "/" c = true -> c = "/"%char.
Proof.
  destruct c as [[] [] [] [] [] [] [] []]; vm_compute; intros H;
    try discriminate H; reflexivity.
Qed.

Lemma char_matches_i_one (c : ascii) :
  char_matches true "1" c = true -> c = "1"%char.
Proof.
  destruct c as [[] [] [] [] [] [] [] []]; vm_compute; intros H;
    try discriminate H; reflexivity.
Qed.

Lemma char_matches_i_v (c : ascii) :
  char_matches true "v" c = true -> c = "v"%char \/ c = "V"%char.
Proof.
  destruct c as [[] [] [] [] [] [] [] []]; vm_compute; intros H;
    try discriminate H; auto.
Qed.

(** /\/v1$/i anchored at a position matches only when what remains of the
    input is "/v1" or "/V1". *)
Lemma match_v1_inv (s : string) (n : nat) :
  matches_at trailing_v1 s = Some n -> s = "/v1" \/ s = "/V1".
Proof.
  unfold matches_at, trailing_v1. cbn [terms ignoreCase].
  destruct s as [|a s]; [discriminate|].
  rewrite match_here_char_cons.
  destruct (char_matches true "/" a) eqn:Ea; [|discriminate].
  apply char_matches_i_slash in Ea. subst a.
  destruct s as [|b s]; [discriminate|].
  rewrite match_here_char_cons.
  destruct (char_matches true "v" b) eqn:Eb; [|discriminate].
  destruct s as [|c s]; [discriminate|].
  rewrite match_here_char_cons.
  destruct (char_matches true "1" c) eqn:Ec; [|discriminate].
  apply char_matches_i_one in Ec. subst c.
  destruct s as [|d s]; [|discriminate].
  intros _. destruct (char_matches_i_v b Eb) as [-> | ->]; auto.
Qed.

Lemma match_v1_none_longer (c : ascii) (front suf : string) :
  String.length suf = 3 ->
  matches_at trailing_v1 (String c (front ++ suf)) = None.
Proof.
  intros Hl.
  destruct (matches_at trailing_v1 (String c (front ++ suf))) as [n|] eqn:E;
    [|reflexivity].
  exfalso. apply match_v1_inv in E.
  assert (L : String.length (String c (front ++ suf)) = 3)
    by (destruct E as [-> | ->]; reflexivity).
  cbn [String.length] in L. rewrite StrFacts.length_append, Hl in L. lia.
Qed.

(** [s.replace(/\/v1$/i, "")] removes "/v1" or "/V1" at the end. *)
Lemma replace_trailing_v1 (front v : string) :
  v = "v" \/ v = "V" ->
  replace trailing_v1 "" (front ++ "/" ++ v ++ "1") = front.
Proof.
  intros Hv. induction front as [|c front IH].
  - destruct Hv as [-> | ->]; reflexivity.
  - change (String c front ++ "/" ++ v ++ "1")
      with (String c (front ++ "/" ++ v ++ "1")).
    rewrite replace_unfold, match_v1_none_longer.
    + now rewrite IH.
    + destruct Hv as [-> | ->]; reflexivity.
Qed.

(** ... and leaves a string without such an end as it is. *)
Lemma replace_no_trailing_v1 (s : string) :
  ~ Str.ends_with "/v1" s -> ~ Str.ends_with "/V1" s ->
  replace trailing_v1 "" s = s.
Proof.
  induction s as [|c s IH]; intros H1 H2; [reflexivity|].
  rewrite replace_unfold.
  destruct (matches_at trailing_v1 (String c s)) as [n|] eqn:E.
  - exfalso. apply match_v1_inv in E. destruct E as [E|E]; rewrite E in *.
    + apply H1. now exists "".
    + apply H2. now exists "".
  - f_equal. apply IH; intros X.
    + apply H1. now apply ends_with_tail.
    + apply H2. now apply ends_with_tail.
Qed.

(** A string ends with "/v1" or "/V1", or with neither. *)
Lemma trailing_v1_cases (r : string) :
  (exists front v, (v = "v" \/ v = "V") /\ r = front ++ "/" ++ v ++ "1") \/
  (~ Str.ends_with "/v1" r /\ ~ Str.ends_with "/V1" r).
Proof.
  induction r as [|c r IH].
  - right. split; apply not_ends_with_empty.
  - destruct IH as [(front & v & Hv & ->) | [H1 H2]].
    + left. exists (String c front), v. now split.
    + destruct (string_dec (String c r) "/v1") as [E|N1].
      { left. exists "", "v". split; [now left | exact E]. }
      destruct (string_dec (String c r) "/V1") as [E|N2].
      { left. exists "", "V". split; [now right | exact E]. }
      right. split; intros [front E]; destruct front as [|x front];
        try (simpl in E; congruence); injection E as _ E.
      * apply H1. now exists front.
      * apply H2. now exists front.
Qed.

End AnthropicURL.

(** C6: the request URL of the Anthropic adapter.  The base URL supplied
    (https://api.anthropic.com when none is) is a string [r] without a
    slash at its end followed by a run of slashes; the run is removed; when
    [r] ends with "/v1" or "/V1" that end is removed too; "/v1/messages" is
    appended to what is left.  So "https://x.example.com/v1" and
    "https://x.example.com/v1/" both give
    "https://x.example.com/v1/messages". *)
Theorem Anthropic_url_normalized :
  (forall (messages : list Message) (apiKey model : string)
          (baseURL : option string),
     let url := req_url (Anthropic.request messages apiKey model baseURL) in
     exists r k,
       Spec.supplied_baseURL baseURL = r ++ Spec.slashes k /\
       ~ Str.ends_with "/" r /\
       ((exists front v,
           (v = "v" \/ v = "V") /\ r = front ++ "/" ++ v ++ "1" /\
           url = front ++ "/v1/messages") \/
        (~ Str.ends_with "/v1" r /\ ~ Str.ends_with "/V1" r /\
         url = r ++ "/v1/messages"))) /\
  (forall (messages : list Message) (apiKey model : string),
     req_url (Anthropic.request messages apiKey model
                (Some "https://x.example.com/v1")) =
       "https://x.example.com/v1/messages" /\
     req_url (Anthropic.request messages apiKey model
                (Some "https://x.example.com/v1/")) =
       "https://x.example.com/v1/messages" /\
     req_url (Anthropic.request messages apiKey model None) =
       "https://api.anthropic.com/v1/messages").
Proof.
  split; [|intros; repeat split].
  intros messages apiKey model baseURL url. subst url.
  cbn [Anthropic.request req_url].
  destruct (trailing_slashes_split (Spec.supplied_baseURL baseURL))
    as (r & k & E & Hr).
  exists r, k. split; [exact E|]. split; [exact Hr|].
  assert (U : Anthropic.url baseURL =
              RegExp.replace Anthropic.trailing_v1 "" r ++ "/v1/messages").
  { unfold Anthropic.url, Anthropic.resolvedBaseURL.
    change (match baseURL with
            | Some b => b
            | None => Anthropic.default_baseURL
            end) with (Spec.supplied_baseURL baseURL).
    now rewrite E, replace_trailing_slashes. }
  destruct (trailing_v1_cases r) as [(front & v & Hv & ->) | [H1 H2]].
  - left. exists front, v. split; [exact Hv|]. split; [reflexivity|].
    now rewrite U, replace_trailing_v1.
  - right. split; [exact H1|]. split; [exact H2|].
    now rewrite U, replace_no_trailing_v1.
Qed.

Example Anthropic_url_uppercase_V1 :
  Anthropic.url (Some "https://x.example.com/V1//") =
  "https://x.example.com/v1/messages".
Proof. reflexivity. Qed.

Example Anthropic_url_slash_before_v1 :
  Anthropic.url (Some "https://x.example.com//v1") =
  "https://x.example.com//v1/messages".
Proof. reflexivity. Qed.

Example Anthropic_url_empty_baseURL :
  Anthropic.url (Some "") = "/v1/messages".
Proof. reflexivity. Qed.

(** * Further properties *)

(** ** The registry *)

Lemma inherited_In (p : string) :
  Registry.inherited p = true <-> In p Registry.Object_prototype_keys.
Proof.
  unfold Registry.inherited. rewrite existsb_exists. split.
  - intros (x & Hx & E). apply String.eqb_eq in E. now subst.
  - intros H. exists p. split; [exact H | apply String.eqb_refl].
Qed.

(** X1: getProviderConfig succeeds exactly on the nine registered
    identifiers and on the names of the members of Object.prototype; on any
    other string it throws an Error whose message quotes the string and
    lists the nine identifiers in declaration order. *)
Theorem getProviderConfig_accepts_iff :
  forall p : string,
    ((is_Provider p \/ In p Registry.Object_prototype_keys) /\
     exists e, getProviderConfig p = Ok (Some e)) \/
    (~ is_Provider p /\ ~ In p Registry.Object_prototype_keys /\
     getProviderConfig p =
       Throw (Error ("Unknown provider " ++ Str.dquote ++ p ++ Str.dquote ++
         ". Valid providers: openai, anthropic, gemini, groq, together, mistral, openrouter, xai, deepseek"))).
Proof.
  intros p. unfold getProviderConfig, Registry.has_property, Registry.get.
  destruct (Registry.own_lookup p Registry.PROVIDER_CONFIGS) as [c|] eqn:E.
  - left. split; [left; apply is_Provider_own; now exists c|].
    now exists (Registry.Own c).
  - destruct (Registry.inherited p) eqn:I.
    + left. split; [right; now apply inherited_In|].
      now exists (Registry.Inherited p).
    + right. split; [|split].
      * intros H. apply is_Provider_own in H as [c Hc]. congruence.
      * intros H. apply inherited_In in H. congruence.
      * reflexivity.
Qed.

(** X2: every registered provider has a non-empty base URL, and its default
    model is empty for "openrouter" only. *)
Theorem registry_entries_usable :
  forall (p : string) (c : ProviderConfig),
    Registry.own_lookup p Registry.PROVIDER_CONFIGS = Some c ->
    cfg_baseURL c <> "" /\ (defaultModel c = "" <-> p = "openrouter").
Proof.
  intros p c H. apply own_lookup_In in H. simpl in H.
  repeat (destruct H as [H|H];
          [injection H as <- <-; simpl;
           split; [discriminate | split; discriminate || reflexivity]|]).
  contradiction.
Qed.

Lemma registry_entries_usable_witness :
  "https://api.groq.com/openai/v1" <> "" /\
  ("llama-3.3-70b-versatile" = "" <-> "groq" = "openrouter").
Proof.
  exact (registry_entries_usable "groq"
           {| cfg_baseURL := "https://api.groq.com/openai/v1";
              defaultModel := "llama-3.3-70b-versatile" |} eq_refl).
Defined.

(** ** The option resolver *)

(** X3: whatever resolveLlm returns is a function. *)
Theorem resolveLlm_returns_function :
  forall (o : LlmOptions) (callerName : string) (v : JsValue),
    resolveLlm o callerName = Ok v -> typeof v = "function".
Proof.
  intros o callerName v. unfold resolveLlm.
  destruct (truthy (llm o)).
  - destruct (String.eqb_spec (typeof (llm o)) "function") as [E|_]; simpl;
      [|discriminate]. now intros [= <-].
  - destruct (apiKey o) as [key|]; [|discriminate].
    destruct (truthy_string key); [|discriminate].
    destruct (match provider o with
              | Some p => if truthy_string p then getProviderConfig p else Ok None
              | None => Ok None
              end) as [cfg|e]; simpl; [|discriminate].
    destruct (nullish (model o) (opt_defaultModel cfg)) as [m|]; [|discriminate].
    destruct (truthy_string m); [|discriminate]. now intros [= <-].
Qed.

Lemma resolveLlm_returns_function_witness :
  typeof (JsFunction (CallLLMClosure "sk-test" "gpt-4o-mini"
                        (Some "openai") None)) = "function".
Proof.
  exact (resolveLlm_returns_function Examples.openai_by_provider "testpkg"
           _ eq_refl).
Defined.

(** X4: the package name only words the errors: options that resolve under
    one package name resolve to the same function under any other. *)
Theorem resolveLlm_packageName_only_in_errors :
  forall (o : LlmOptions) (name1 name2 : string) (v : JsValue),
    resolveLlm o name1 = Ok v -> resolveLlm o name2 = Ok v.
Proof.
  intros o name1 name2 v. unfold resolveLlm.
  destruct (truthy (llm o)); [auto|].
  destruct (apiKey o) as [key|]; [|discriminate].
  destruct (truthy_string key); [|discriminate].
  destruct (match provider o with
            | Some p => if truthy_string p then getProviderConfig p else Ok None
            | None => Ok None
            end) as [cfg|e]; simpl; [|discriminate].
  destruct (nullish (model o) (opt_defaultModel cfg)) as [m|]; [|discriminate].
  destruct (truthy_string m); [auto | discriminate].
Qed.

Lemma resolveLlm_packageName_only_in_errors_witness :
  resolveLlm Examples.openai_by_provider "other" =
  Ok (JsFunction (CallLLMClosure "sk-test" "gpt-4o-mini" (Some "openai") None)).
Proof.
  exact (resolveLlm_packageName_only_in_errors Examples.openai_by_provider
           "testpkg" "other" _ eq_refl).
Defined.

(** X5: with a usable API key, a provider string that getProviderConfig
    refuses makes resolveLlm throw the "Unknown provider" error, also when
    a model is given. *)
Theorem resolveLlm_unknown_provider_propagates :
  forall (callerName key p : string) (m b : option string) (v : JsValue),
    truthy v = false -> key <> "" -> p <> "" ->
    Registry.has_property p = false ->
    resolveLlm {| apiKey := Some key; provider := Some p; model := m;
                  baseURL := b; llm := v |} callerName =
    Throw (Error ("Unknown provider " ++ Str.dquote ++ p ++ Str.dquote ++
      ". Valid providers: openai, anthropic, gemini, groq, together, mistral, openrouter, xai, deepseek")).
Proof.
  intros callerName key p m b v Hv Hk Hp Hh.
  apply truthy_string_true in Hk. apply truthy_string_true in Hp.
  unfold resolveLlm. cbn [llm apiKey provider]. rewrite Hv, Hk, Hp.
  unfold getProviderConfig. rewrite Hh. reflexivity.
Qed.

Lemma resolveLlm_unknown_provider_propagates_witness :
  resolveLlm {| apiKey := Some "sk-test"; provider := Some "invalid";
                model := Some "gpt-4o"; baseURL := None;
                llm := JsUndefined |} "testpkg" =
  Throw (Error ("Unknown provider " ++ Str.dquote ++ "invalid" ++ Str.dquote ++
    ". Valid providers: openai, anthropic, gemini, groq, together, mistral, openrouter, xai, deepseek")).
Proof.
  assert (K : "sk-test" <> "") by discriminate.
  assert (P : "invalid" <> "") by discriminate.
  exact (resolveLlm_unknown_provider_propagates "testpkg" "sk-test" "invalid"
           (Some "gpt-4o") None JsUndefined eq_refl K P eq_refl).
Defined.

(** X6: the [{ apiKey, provider }] pattern: with a non-empty API key and a
    registered provider, and no model, resolveLlm returns the function that
    calls the router on the default model of the provider; for "openrouter",
    which has none, it throws the "requires `model`" error. *)
Theorem resolveLlm_provider_default_model :
  forall (callerName key p : string) (c : ProviderConfig) (b : option string),
    Registry.own_lookup p Registry.PROVIDER_CONFIGS = Some c ->
    key <> "" ->
    resolveLlm {| apiKey := Some key; provider := Some p; model := None;
                  baseURL := b; llm := JsUndefined |} callerName =
    if String.eqb p "openrouter" then
      Throw (Error (callerName ++
        " requires `model` when using `apiKey` (or use a `provider` with a default model)"))
    else Ok (JsFunction (CallLLMClosure key (defaultModel c) (Some p) b)).
Proof.
  intros callerName key p c b H Hk. apply truthy_string_true in Hk.
  apply own_lookup_In in H. simpl in H.
  repeat (destruct H as [H|H];
          [injection H as <- <-; unfold resolveLlm;
           cbn [llm apiKey provider truthy]; rewrite Hk; reflexivity|]).
  contradiction.
Qed.

Lemma resolveLlm_provider_default_model_witness :
  resolveLlm {| apiKey := Some "k"; provider := Some "deepseek";
                model := None; baseURL := None; llm := JsUndefined |} "pkg" =
  Ok (JsFunction (CallLLMClosure "k" "deepseek-chat" (Some "deepseek") None)).
Proof.
  assert (K : "k" <> "") by discriminate.
  exact (resolveLlm_provider_default_model "pkg" "k" "deepseek"
           {| cfg_baseURL := "https://api.deepseek.com";
              defaultModel := "deepseek-chat" |} None eq_refl K).
Defined.

(** X7: a falsy [llm] (undefined, null, false, a zero or NaN number, 0n,
    the empty string) is passed over: resolveLlm answers as it does for the
    same options without [llm]. *)
Theorem resolveLlm_ignores_falsy_llm :
  forall (callerName : string) (key p m b : option string) (v : JsValue),
    (v = JsUndefined \/ v = JsNull \/ v = JsBoolean false \/
     v = JsNumber PrimFloat.zero \/ v = JsNumber PrimFloat.neg_zero \/
     v = JsNumber PrimFloat.nan \/
     (exists neg, v = JsBigInt 0 neg) \/ v = JsString "") ->
    resolveLlm {| apiKey := key; provider := p; model := m; baseURL := b;
                  llm := v |} callerName =
    resolveLlm {| apiKey := key; provider := p; model := m; baseURL := b;
                  llm := JsUndefined |} callerName.
Proof.
  intros callerName key p m b v H.
  assert (F : truthy v = false).
  { destruct H as [->|[->|[->|[->|[->|[->|[[neg ->]| ->]]]]]]]; reflexivity. }
  unfold resolveLlm. cbn [llm]. rewrite F. reflexivity.
Qed.

Lemma resolveLlm_ignores_falsy_llm_witness :
  resolveLlm {| apiKey := Some "k"; provider := None; model := Some "m";
                baseURL := None; llm := JsNull |} "pkg" =
  resolveLlm {| apiKey := Some "k"; provider := None; model := Some "m";
                baseURL := None; llm := JsUndefined |} "pkg".
Proof.
  exact (resolveLlm_ignores_falsy_llm "pkg" (Some "k") None (Some "m") None
           JsNull (or_intror (or_introl eq_refl))).
Defined.

Lemma has_property_get (p : string) :
  Registry.has_property p = true -> exists e, Registry.get p = Some e.
Proof.
  unfold Registry.has_property, Registry.get.
  destruct (Registry.own_lookup p Registry.PROVIDER_CONFIGS) as [c|];
    [intros _; now exists (Registry.Own c)|].
  intros ->. now exists (Registry.Inherited p).
Qed.

Lemma has_property_anthropic (p : string) :
  Registry.has_property p = false -> String.eqb p "anthropic" = false.
Proof.
  intros H. destruct (String.eqb_spec p "anthropic") as [->|]; [|reflexivity].
  discriminate H.
Qed.

(** When the router throws. *)
Lemma callLLM_Throw_inv (messages : list Message) (key m : string)
    (p b : option string) (e : JsError) :
  callLLM messages key m p b = Throw e ->
  b = None /\
  exists name, p = Some name /\ name <> "" /\
               Registry.has_property name = false /\
               e = TypeError
                     "Cannot read properties of undefined (reading 'baseURL')".
Proof.
  unfold callLLM.
  destruct (strict_eq p "anthropic"); [discriminate|].
  destruct b as [b|]; [discriminate|].
  destruct p as [name|]; [|discriminate].
  destruct (truthy_string name) eqn:T; [|discriminate].
  apply truthy_string_true in T.
  destruct (Registry.has_property name) eqn:H.
  - destruct (has_property_get name H) as [x ->]. discriminate.
  - pose proof H as H'. unfold Registry.get.
    unfold Registry.has_property in H.
    destruct (Registry.own_lookup name Registry.PROVIDER_CONFIGS);
      [discriminate|].
    rewrite H. simpl. intros [= <-]. split; [reflexivity|].
    exists name. auto.
Qed.

(** X8: the router throws in one case only: no base URL, and a non-empty
    provider string that is no property of the registry object; the error
    is then the TypeError of reading [baseURL] of [undefined]. *)
Theorem callLLM_throws_iff :
  forall (messages : list Message) (key m : string)
         (p b : option string) (e : JsError),
    callLLM messages key m p b = Throw e <->
    (b = None /\
     exists name, p = Some name /\ name <> "" /\
                  Registry.has_property name = false /\
                  e = TypeError
                        "Cannot read properties of undefined (reading 'baseURL')").
Proof.
  intros messages key m p b e. split; [apply callLLM_Throw_inv|].
  intros (-> & name & -> & Hn & Hh & ->).
  apply truthy_string_true in Hn. unfold callLLM. simpl.
  rewrite (has_property_anthropic name Hh), Hn.
  unfold Registry.get. unfold Registry.has_property in Hh.
  destruct (Registry.own_lookup name Registry.PROVIDER_CONFIGS);
    [discriminate|]. rewrite Hh. reflexivity.
Qed.

(** X9: a function that resolveLlm builds from an API key never meets that
    TypeError: the provider it captured went through getProviderConfig, so
    the router always reaches an adapter. *)
Theorem resolved_caller_reaches_adapter :
  forall (o : LlmOptions) (callerName : string) (f : FunctionObject)
         (messages : list Message),
    truthy (llm o) = false ->
    resolveLlm o callerName = Ok (JsFunction f) ->
    exists c, call f messages = Some (Ok c).
Proof.
  intros o callerName f messages Hl. unfold resolveLlm. rewrite Hl.
  destruct (apiKey o) as [key|]; [|discriminate].
  destruct (truthy_string key); [|discriminate].
  assert (R : (provider o = None \/ provider o = Some "" \/
               exists p, provider o = Some p /\ Registry.has_property p = true)
              \/ exists e, match provider o with
                           | Some p => if truthy_string p
                                       then getProviderConfig p else Ok None
                           | None => Ok None
                           end = Throw e).
  { destruct (provider o) as [p|]; [|left; now left].
    destruct p as [|ch p]; [left; right; now left|].
    cbn [truthy_string]. unfold getProviderConfig.
    destruct (Registry.has_property (String ch p)) eqn:H.
    - left. right. right. now exists (String ch p).
    - right. simpl. eauto. }
  destruct R as [R | [e ->]]; [|discriminate].
  destruct (match provider o with
            | Some p => if truthy_string p then getProviderConfig p else Ok None
            | None => Ok None
            end) as [cfg|e]; simpl; [|discriminate].
  destruct (nullish (model o) (opt_defaultModel cfg)) as [m|]; [|discriminate].
  destruct (truthy_string m); [|discriminate].
  intros [= <-]. simpl.
  destruct (callLLM messages key m (provider o) (baseURL o)) as [c|e] eqn:E;
    [now exists c|].
  exfalso. apply callLLM_Throw_inv in E.
  destruct E as (_ & name & Hp & Hn & Hh & _).
  destruct R as [R|[R|(p & R & Hp')]]; rewrite R in Hp; try discriminate.
  - injection Hp as <-. now apply Hn.
  - injection Hp as <-. congruence.
Qed.

Lemma resolved_caller_reaches_adapter_witness :
  exists c,
    call (CallLLMClosure "sk-test" "gpt-4o-mini" (Some "openai") None) [] =
    Some (Ok c).
Proof.
  exact (resolved_caller_reaches_adapter Examples.openai_by_provider "testpkg"
           (CallLLMClosure "sk-test" "gpt-4o-mini" (Some "openai") None) []
           eq_refl eq_refl).
Defined.

(** ** The Anthropic adapter: normalization of the base URL *)

Section AnthropicURLMore.

Import RegExp Anthropic.

Lemma append_nil_r (s : string) : s ++ "" = s.
Proof. induction s as [|c s IH]; simpl; [reflexivity | now rewrite IH]. Qed.

Lemma append_last_inj (a b : string) (c d : ascii) :
  a ++ String c "" = b ++ String d "" -> c = d.
Proof.
  revert b. induction a as [|x a IH]; intros [|y b]; simpl; intros H.
  - now injection H.
  - injection H as _ H. destruct b; discriminate.
  - injection H as _ H. destruct a; discriminate.
  - injection H as _ H. now apply (IH b).
Qed.

(** A string whose last character is not a slash does not end with one. *)
Lemma not_ends_with_slash (a : string) (c : ascii) :
  c <> "/"%char -> ~ Str.ends_with "/" (a ++ String c "").
Proof.
  intros Hc [front E]. apply append_last_inj in E. contradiction.
Qed.

Lemma url_of (supplied r : string) (k : nat) :
  supplied = r ++ Spec.slashes k -> ~ Str.ends_with "/" r ->
  url (Some supplied) = replace trailing_v1 "" r ++ "/v1/messages".
Proof.
  intros -> Hr. unfold url, resolvedBaseURL.
  now rewrite replace_trailing_slashes.
Qed.

End AnthropicURLMore.

(** X10: a base URL given with or without the version suffix, and with any
    number of slashes at its end, leads to the same request URL: for [r]
    that ends neither with a slash nor with "/v1" or "/V1", both [r] plus
    slashes and [r] plus "/v1" (or "/V1") plus slashes give
    [r ++ "/v1/messages"]. *)
Theorem Anthropic_url_version_suffix_optional :
  forall (r v : string) (j k : nat),
    ~ Str.ends_with "/" r ->
    ~ Str.ends_with "/v1" r -> ~ Str.ends_with "/V1" r ->
    (v = "v" \/ v = "V") ->
    Anthropic.url (Some (r ++ Spec.slashes j)) = r ++ "/v1/messages" /\
    Anthropic.url (Some (r ++ "/" ++ v ++ "1" ++ Spec.slashes k)) =
      r ++ "/v1/messages".
Proof.
  intros r v j k Hr H1 H2 Hv. split.
  - rewrite (url_of (r ++ Spec.slashes j) r j eq_refl Hr).
    now rewrite replace_no_trailing_v1.
  - rewrite (url_of (r ++ "/" ++ v ++ "1" ++ Spec.slashes k)
               (r ++ "/" ++ v ++ "1") k).
    + now rewrite replace_trailing_v1.
    + rewrite StrFacts.append_assoc. destruct Hv as [-> | ->]; reflexivity.
    + replace (r ++ "/" ++ v ++ "1") with ((r ++ "/" ++ v) ++ String "1" "").
      * apply not_ends_with_slash. discriminate.
      * rewrite StrFacts.append_assoc. destruct Hv as [-> | ->]; reflexivity.
Qed.

Lemma Anthropic_url_version_suffix_optional_witness :
  Anthropic.url (Some ("x" ++ Spec.slashes 2)) = "x" ++ "/v1/messages" /\
  Anthropic.url (Some ("x" ++ "/" ++ "V" ++ "1" ++ Spec.slashes 1)) =
    "x" ++ "/v1/messages".
Proof.
  assert (A : ~ Str.ends_with "/" "x").
  { intros [[|c [|d front]] E]; discriminate. }
  assert (B : ~ Str.ends_with "/v1" "x").
  { intros [front E]. apply (f_equal String.length) in E.
    rewrite StrFacts.length_append in E. simpl in E. lia. }
  assert (C : ~ Str.ends_with "/V1" "x").
  { intros [front E]. apply (f_equal String.length) in E.
    rewrite StrFacts.length_append in E. simpl in E. lia. }
  exact (Anthropic_url_version_suffix_optional "x" "V" 2 1 A B C
           (or_intror eq_refl)).
Defined.

(** X11: normalization only cuts at the end: the base URL that is used is
    a prefix of the one supplied, and what is cut is a run of slashes,
    after at most one "/v1" or "/V1". *)
Theorem Anthropic_resolvedBaseURL_prefix :
  forall baseURL : option string,
    exists (cut : string) (k : nat),
      Spec.supplied_baseURL baseURL =
        Anthropic.resolvedBaseURL baseURL ++ cut /\
      (cut = Spec.slashes k \/ cut = "/v1" ++ Spec.slashes k \/
       cut = "/V1" ++ Spec.slashes k).
Proof.
  intros baseURL.
  destruct (trailing_slashes_split (Spec.supplied_baseURL baseURL))
    as (r & k & E & Hr).
  assert (R : Anthropic.resolvedBaseURL baseURL =
              RegExp.replace Anthropic.trailing_v1 "" r).
  { unfold Anthropic.resolvedBaseURL.
    change (match baseURL with
            | Some b => b
            | None => Anthropic.default_baseURL
            end) with (Spec.supplied_baseURL baseURL).
    now rewrite E, replace_trailing_slashes. }
  rewrite R, E.
  destruct (trailing_v1_cases r) as [(front & v & Hv & ->) | [H1 H2]].
  - rewrite replace_trailing_v1 by exact Hv.
    exists ("/" ++ v ++ "1" ++ Spec.slashes k), k. split.
    + rewrite StrFacts.append_assoc. destruct Hv as [-> | ->]; reflexivity.
    + destruct Hv as [-> | ->]; [right; left | right; right]; reflexivity.
  - rewrite replace_no_trailing_v1 by assumption.
    exists (Spec.slashes k), k. split; [reflexivity | now left].
Qed.

(** X12: one pass only: of two version suffixes the last alone is removed,
    and a slash that the removal of the suffix uncovers stays. *)
Theorem Anthropic_url_single_pass :
  forall r : string,
    Anthropic.url (Some (r ++ "/v1/v1")) = r ++ "/v1/v1/messages" /\
    Anthropic.url (Some (r ++ "//v1")) = r ++ "//v1/messages".
Proof.
  intros r. split.
  - rewrite (url_of (r ++ "/v1/v1") ((r ++ "/v1") ++ "/" ++ "v" ++ "1") 0).
    + rewrite replace_trailing_v1 by now left.
      now rewrite StrFacts.append_assoc.
    + cbn [Spec.slashes]. now rewrite append_nil_r, StrFacts.append_assoc.
    + replace ((r ++ "/v1") ++ "/" ++ "v" ++ "1")
        with ((r ++ "/v1/v") ++ String "1" "")
        by now rewrite !StrFacts.append_assoc.
      apply not_ends_with_slash. discriminate.
  - rewrite (url_of (r ++ "//v1") ((r ++ "/") ++ "/" ++ "v" ++ "1") 0).
    + rewrite replace_trailing_v1 by now left.
      now rewrite StrFacts.append_assoc.
    + cbn [Spec.slashes]. now rewrite append_nil_r, StrFacts.append_assoc.
    + replace ((r ++ "/") ++ "/" ++ "v" ++ "1")
        with ((r ++ "//v") ++ String "1" "")
        by now rewrite !StrFacts.append_assoc.
      apply not_ends_with_slash. discriminate.
Qed.

(** ** The Anthropic adapter: system messages *)

Section AnthropicBodyMore.

Import Anthropic.

Lemma find_app_found {A : Type} (f : A -> bool) (l1 l2 : list A) :
  (exists x, In x l1 /\ f x = true) -> find f (l1 ++ l2) = find f l1.
Proof.
  induction l1 as [|a l1 IH]; intros (x & Hin & Hx); [destruct Hin|].
  simpl. destruct (f a) eqn:E; [reflexivity|].
  apply IH. destruct Hin as [->|Hin]; [congruence|]. now exists x.
Qed.

Lemma find_app_not_found {A : Type} (f : A -> bool) (l1 l2 : list A) :
  Forall (fun x => f x = false) l1 -> find f (l1 ++ l2) = find f l2.
Proof.
  induction 1 as [|a l1 Ha _ IH]; simpl; [reflexivity|]. now rewrite Ha.
Qed.

Lemma body_by_parts (l l' : list Message) (m : string) :
  find is_system l = find is_system l' ->
  filter (fun x => negb (is_system x)) l =
  filter (fun x => negb (is_system x)) l' ->
  body l m = body l' m.
Proof. intros F G. unfold body. now rewrite F, G. Qed.

Lemma non_system_Forall (l : list Message) :
  Forall (fun x => role x <> system) l ->
  Forall (fun x => is_system x = false) l.
Proof.
  intros H. eapply Forall_impl; [|exact H].
  intros x Hx. now apply is_system_false.
Qed.

End AnthropicBodyMore.

(** X13: once a message list holds a system message, a further system
    message after it changes nothing in the request: its content is sent
    nowhere. *)
Theorem Anthropic_later_system_message_dropped :
  forall (l1 l2 : list Message) (x : Message) (key m : string)
         (b : option string),
    role x = system ->
    (exists s, In s l1 /\ role s = system) ->
    Anthropic.request (l1 ++ x :: l2) key m b =
    Anthropic.request (l1 ++ l2) key m b.
Proof.
  intros l1 l2 x key m b Hx (s & Hin & Hs).
  unfold Anthropic.request. f_equal. apply body_by_parts.
  - rewrite !find_app_found; try reflexivity;
      exists s; (split; [exact Hin | now apply is_system_true]).
  - rewrite !filter_app. simpl.
    apply is_system_true in Hx. now rewrite Hx.
Qed.

Lemma Anthropic_later_system_message_dropped_witness :
  Anthropic.request
    ([ {| role := system; content := "S1" |} ] ++
     {| role := system; content := "S2" |} ::
     [ {| role := user; content := "U" |} ]) "k" "m" None =
  Anthropic.request
    ([ {| role := system; content := "S1" |} ] ++
     [ {| role := user; content := "U" |} ]) "k" "m" None.
Proof.
  exact (Anthropic_later_system_message_dropped
           [ {| role := system; content := "S1" |} ]
           [ {| role := user; content := "U" |} ]
           {| role := system; content := "S2" |} "k" "m" None eq_refl
           (ex_intro _ {| role := system; content := "S1" |}
              (conj (or_introl eq_refl) eq_refl))).
Defined.

(** X14: where the first system message stands among the other messages is
    not sent: the request is the one for the list with that message moved
    to the front. *)
Theorem Anthropic_system_position_lost :
  forall (before after : list Message) (s : Message) (key m : string)
         (b : option string),
    Forall (fun x => role x <> system) before ->
    role s = system ->
    Anthropic.request (before ++ s :: after) key m b =
    Anthropic.request (s :: before ++ after) key m b.
Proof.
  intros before after s key m b Hb Hs. apply is_system_true in Hs.
  unfold Anthropic.request. f_equal. apply body_by_parts.
  - rewrite find_app_not_found by now apply non_system_Forall.
    simpl. now rewrite Hs.
  - rewrite filter_app. simpl. rewrite Hs. simpl. now rewrite filter_app.
Qed.

Lemma Anthropic_system_position_lost_witness :
  Anthropic.request
    ([ {| role := user; content := "U" |} ] ++
     {| role := system; content := "S" |} :: []) "k" "m" None =
  Anthropic.request
    ({| role := system; content := "S" |} ::
     [ {| role := user; content := "U" |} ] ++ []) "k" "m" None.
Proof.
  assert (N : Forall (fun x => role x <> system)
                [ {| role := user; content := "U" |} ]).
  { constructor; [discriminate | constructor]. }
  exact (Anthropic_system_position_lost
           [ {| role := user; content := "U" |} ] []
           {| role := system; content := "S" |} "k" "m" None N eq_refl).
Defined.

(** ** The adapters with their transport *)

Lemma find_first {A : Type} (f : A -> bool) (l : list A) (x : A) :
  find f l = Some x ->
  exists before after,
    l = (before ++ x :: after)%list /\
    Forall (fun y => f y = false) before /\ f x = true.
Proof.
  induction l as [|a l IH]; simpl; [discriminate|].
  destruct (f a) eqn:E.
  - intros [= ->]. exists [], l. repeat split; [constructor | exact E].
  - intros H. destruct (IH H) as (before & after & -> & Hb & Hx).
    exists (a :: before), after. repeat split; [|exact Hx].
    now constructor.
Qed.

Lemma is_text_true (b : ContentBlock) :
  Run.is_text b = true <-> block_type b = "text".
Proof. apply String.eqb_eq. Qed.

Lemma is_text_false (b : ContentBlock) :
  Run.is_text b = false <-> block_type b <> "text".
Proof. apply String.eqb_neq. Qed.

(** X15: the Anthropic adapter returns a text exactly when [fetch] yields
    an ok response whose parsed body has a content list, the first block of
    type "text" in that list has a text, and that text is not empty; it is
    this text that is returned.  Text blocks after the first are not looked
    at. *)
Theorem callAnthropic_returns_iff :
  forall (fetch : HttpRequest -> Result HttpResponse)
         (messages : list Message) (key m : string) (b : option string)
         (t : string),
    Run.callAnthropic fetch messages key m b = Ok t <->
    exists res data before blk after,
      fetch (Anthropic.request messages key m b) = Ok res /\
      res_ok res = true /\
      res_json res = Ok data /\
      data_content data = Some (before ++ blk :: after)%list /\
      Forall (fun x => block_type x <> "text") before /\
      block_type blk = "text" /\
      block_text blk = Some t /\ t <> "".
Proof.
  intros fetch messages key m b t. unfold Run.callAnthropic. split.
  - destruct (fetch (Anthropic.request messages key m b)) as [res|e] eqn:Hf;
      simpl; [|discriminate].
    destruct (res_ok res) eqn:Hok; simpl.
    + destruct (res_json res) as [data|e] eqn:Hj; simpl; [|discriminate].
      destruct (data_content data) as [blocks|] eqn:Hc; [|discriminate].
      destruct (find Run.is_text blocks) as [blk|] eqn:F; [|discriminate].
      destruct (block_text blk) as [x|] eqn:Hx; [|discriminate].
      destruct (truthy_string x) eqn:T; [|discriminate].
      intros [= ->].
      destruct (find_first _ _ _ F) as (before & after & -> & Hb & Hblk).
      exists res, data, before, blk, after.
      split; [reflexivity|]. split; [exact Hok|]. split; [exact Hj|].
      split; [exact Hc|]. split.
      { eapply Forall_impl; [|exact Hb]. intros y. apply is_text_false. }
      split; [now apply is_text_true|]. split; [exact Hx|].
      now apply truthy_string_true.
    + destruct (res_text res); discriminate.
  - intros (res & data & before & blk & after &
            Hf & Hok & Hj & Hc & Hb & Hblk & Hx & Ht).
    rewrite Hf. simpl. rewrite Hok. simpl. rewrite Hj. simpl. rewrite Hc.
    rewrite find_app_not_found.
    + simpl. apply is_text_true in Hblk. rewrite Hblk, Hx.
      apply truthy_string_true in Ht. now rewrite Ht.
    + eapply Forall_impl; [|exact Hb]. intros y. apply is_text_false.
Qed.

(** X16: when the response is not ok, the Anthropic adapter throws the
    error that carries the status code and the body text; the body is not
    parsed. *)
Theorem callAnthropic_not_ok :
  forall (fetch : HttpRequest -> Result HttpResponse)
         (messages : list Message) (key m : string) (b : option string)
         (res : HttpResponse) (text : string),
    fetch (Anthropic.request messages key m b) = Ok res ->
    res_ok res = false ->
    res_text res = Ok text ->
    Run.callAnthropic fetch messages key m b =
    Throw (Error ("Anthropic API error (" ++ Number_toString (res_status res)
                   ++ "): " ++ text)).
Proof.
  intros fetch messages key m b res text Hf Hok Ht.
  unfold Run.callAnthropic. rewrite Hf. simpl. rewrite Hok. simpl.
  rewrite Ht. reflexivity.
Qed.

Lemma callAnthropic_not_ok_witness :
  Run.callAnthropic (Transports.fetch_status 404 "not found") [] "k" "m" None =
  Throw (Error "Anthropic API error (404): not found").
Proof.
  exact (callAnthropic_not_ok (Transports.fetch_status 404 "not found")
           [] "k" "m" None _ "not found" eq_refl eq_refl eq_refl).
Defined.

(** X17: the OpenAI-compatible adapter returns a text exactly when the
    completion has a first choice with a message whose content is a
    non-empty string; it is this content that is returned.  The client is
    built from the API key and the base URL (left out when empty or
    absent), the request holds the model, the messages as given and
    temperature 0. *)
Theorem callOpenAICompatible_returns_iff :
  forall (create : ClientOptions -> CompletionParams -> Result ChatCompletion)
         (messages : list Message) (key m : string) (b : option string)
         (t : string),
    Run.callOpenAICompatible create messages key m b = Ok t <->
    exists response c rest msg,
      create {| client_apiKey := key;
                client_baseURL := match b with
                                  | Some "" => None
                                  | _ => b
                                  end |}
             {| param_model := m; param_messages := messages;
                param_temperature := 0 |} = Ok response /\
      choices response = c :: rest /\
      choice_message c = Some msg /\
      message_content msg = Some t /\ t <> "".
Proof.
  intros create messages key m b t. unfold Run.callOpenAICompatible.
  assert (O : Run.client_options key b =
              {| client_apiKey := key;
                 client_baseURL := match b with
                                   | Some "" => None
                                   | _ => b
                                   end |}).
  { destruct b as [[|ch b]|]; reflexivity. }
  rewrite O. split.
  - destruct (create _ _) as [response|e] eqn:Hr; simpl; [|discriminate].
    destruct (choices response) as [|c rest] eqn:Hc; [discriminate|].
    destruct (choice_message c) as [msg|] eqn:Hm; [|discriminate].
    destruct (message_content msg) as [x|] eqn:Hx; [|discriminate].
    destruct (truthy_string x) eqn:T; [|discriminate].
    intros [= ->]. exists response, c, rest, msg.
    split; [reflexivity|]. split; [exact Hc|]. split; [exact Hm|].
    split; [exact Hx|]. now apply truthy_string_true.
  - intros (response & c & rest & msg & Hr & Hc & Hm & Hx & Ht).
    rewrite Hr. simpl. rewrite Hc, Hm, Hx.
    apply truthy_string_true in Ht. now rewrite Ht.
Qed.

Lemma callAnthropic_nonempty
    (fetch : HttpRequest -> Result HttpResponse) (messages : list Message)
    (key m : string) (b : option string) (t : string) :
  Run.callAnthropic fetch messages key m b = Ok t -> t <> "".
Proof.
  unfold Run.callAnthropic.
  destruct (fetch _) as [res|e]; simpl; [|discriminate].
  destruct (res_ok res); simpl.
  - destruct (res_json res) as [data|e]; simpl; [|discriminate].
    destruct (match data_content data with
              | Some blocks => find Run.is_text blocks
              | None => None
              end) as [blk|]; [|discriminate].
    destruct (block_text blk) as [x|]; [|discriminate].
    destruct (truthy_string x) eqn:T; [|discriminate].
    intros [= <-]. now apply truthy_string_true.
  - destruct (res_text res); discriminate.
Qed.

Lemma callOpenAICompatible_nonempty
    (create : ClientOptions -> CompletionParams -> Result ChatCompletion)
    (messages : list Message) (key m : string) (b : option string)
    (t : string) :
  Run.callOpenAICompatible create messages key m b = Ok t -> t <> "".
Proof.
  unfold Run.callOpenAICompatible.
  destruct (create _ _) as [response|e]; simpl; [|discriminate].
  destruct (match choices response with
            | [] => None
            | c :: _ => match choice_message c with
                        | Some msg => message_content msg
                        | None => None
                        end
            end) as [x|]; [|discriminate].
  destruct (truthy_string x) eqn:T; [|discriminate].
  intros [= <-]. now apply truthy_string_true.
Qed.

(** X18: the router never returns the empty string: whichever adapter
    serves the call and whatever the transport answers, a text that comes
    back is non-empty. *)
Theorem callLLM_never_returns_empty :
  forall (fetch : HttpRequest -> Result HttpResponse)
         (create : ClientOptions -> CompletionParams -> Result ChatCompletion)
         (messages : list Message) (key m : string) (p b : option string)
         (t : string),
    Run.callLLM fetch create messages key m p b = Ok t -> t <> "".
Proof.
  intros fetch create messages key m p b t. unfold Run.callLLM.
  destruct (callLLM messages key m p b) as [c|e]; simpl; [|discriminate].
  destruct c; unfold Run.perform; simpl.
  - apply callAnthropic_nonempty.
  - apply callOpenAICompatible_nonempty.
Qed.

Lemma callLLM_never_returns_empty_witness : "hello" <> "".
Proof.
  exact (callLLM_never_returns_empty Transports.offline_fetch
           (Transports.create_text "hello") [] "k" "gpt-4o-mini"
           (Some "openai") None "hello" eq_refl).
Defined.

(** X19: an empty-string base URL hides the provider: it takes the place
    of the registry base URL in the router and is then left out of the
    client options, so the call is made as if neither provider nor base URL
    were given. *)
Theorem callLLM_empty_baseURL_drops_provider :
  forall (fetch : HttpRequest -> Result HttpResponse)
         (create : ClientOptions -> CompletionParams -> Result ChatCompletion)
         (messages : list Message) (key m : string) (p : option string),
    p <> Some "anthropic" ->
    Run.callLLM fetch create messages key m p (Some "") =
    Run.callLLM fetch create messages key m None None.
Proof.
  intros fetch create messages key m p Hp. unfold Run.callLLM, callLLM.
  destruct (strict_eq p "anthropic") eqn:E.
  - apply strict_eq_true in E. contradiction.
  - reflexivity.
Qed.

Lemma callLLM_empty_baseURL_drops_provider_witness :
  Run.callLLM Transports.offline_fetch (Transports.create_text "hi") []
    "k" "llama-3.3-70b-versatile" (Some "groq") (Some "") =
  Run.callLLM Transports.offline_fetch (Transports.create_text "hi") []
    "k" "llama-3.3-70b-versatile" None None.
Proof.
  assert (N : Some "groq" <> Some "anthropic") by discriminate.
  exact (callLLM_empty_baseURL_drops_provider Transports.offline_fetch
           (Transports.create_text "hi") [] "k" "llama-3.3-70b-versatile"
           (Some "groq") N).
Defined.

(** X20: from options to the adapter: for options without [llm], with a
    non-empty API key, a provider of the Provider type if any, and a
    non-empty effective model, resolveLlm returns a function, and calling
    it runs the Anthropic adapter on the base URL of the options when the
    provider is "anthropic", and else the OpenAI-compatible adapter on the
    base URL of the options, or for want of it that of the provider in the
    registry. *)
Theorem resolveLlm_then_invoke :
  forall (fetch : HttpRequest -> Result HttpResponse)
         (create : ClientOptions -> CompletionParams -> Result ChatCompletion)
         (o : LlmOptions) (callerName key m : string)
         (messages : list Message),
    llm o = JsUndefined -> apiKey o = Some key -> key <> "" ->
    Spec.provider_typed o ->
    Spec.effective_model o = Some m -> m <> "" ->
    exists f,
      resolveLlm o callerName = Ok (JsFunction f) /\
      Run.invoke fetch create f messages =
      Some (if strict_eq (provider o) "anthropic"
            then Run.callAnthropic fetch messages key m (baseURL o)
            else Run.callOpenAICompatible create messages key m
                   (Spec.effective_baseURL (provider o) (baseURL o))).
Proof.
  intros fetch create o callerName key m messages Hl Hk Hne Hty Hm Hmne.
  exists (CallLLMClosure key m (provider o) (baseURL o)). split.
  - rewrite (rule2_computes_effective_model o callerName key Hl Hk Hne Hty).
    rewrite Hm. apply truthy_string_true in Hmne. now rewrite Hmne.
  - simpl. f_equal. unfold Run.callLLM, callLLM.
    destruct (strict_eq (provider o) "anthropic"); [reflexivity|].
    unfold Spec.effective_baseURL.
    destruct (baseURL o) as [b|]; [reflexivity|].
    destruct (provider o) as [p|] eqn:Hp; [|reflexivity].
    pose proof (Hty p Hp) as Hin.
    rewrite (is_Provider_truthy p Hin).
    apply is_Provider_own in Hin as [c Hc].
    unfold Registry.get, Spec.registry_baseURL. rewrite Hc. reflexivity.
Qed.

Lemma resolveLlm_then_invoke_witness :
  exists f,
    resolveLlm Examples.openai_by_provider "testpkg" = Ok (JsFunction f) /\
    Run.invoke Transports.offline_fetch (Transports.create_text "hi") f [] =
    Some (Run.callOpenAICompatible (Transports.create_text "hi") []
            "sk-test" "gpt-4o-mini" (Some "https://api.openai.com/v1")).
Proof.
  assert (T : Spec.provider_typed Examples.openai_by_provider).
  { intros p [= <-]. now left. }
  assert (K : "sk-test" <> "") by discriminate.
  assert (M : "gpt-4o-mini" <> "") by discriminate.
  exact (resolveLlm_then_invoke Transports.offline_fetch
           (Transports.create_text "hi") Examples.openai_by_provider
           "testpkg" "sk-test" "gpt-4o-mini" [] eq_refl eq_refl K T eq_refl M).
Defined.

Example callAnthropic_first_text_block_decides :
  Run.callAnthropic
    (fun _ => Ok {| res_ok := true; res_status := 200; res_text := Ok "";
                    res_json :=
                      Ok {| data_content :=
                              Some [ {| block_type := "thinking";
                                        block_text := Some "t" |};
                                     {| block_type := "text";
                                        block_text := Some "" |};
                                     {| block_type := "text";
                                        block_text := Some "late" |} ] |} |})
    [] "k" "m" None =
  Throw (Error "Anthropic returned an empty response").
Proof. reflexivity. Qed.

Example callOpenAICompatible_null_content :
  Run.callOpenAICompatible
    (fun _ _ => Ok {| choices :=
                        [ {| choice_message :=
                               Some {| message_content := None |} |} ] |})
    [] "k" "m" None =
  Throw (Error "LLM returned an empty response").
Proof. reflexivity. Qed.
